(** * NeoBreath PET preprocessing: a shallow embedding and its properties

    The development follows the Python sources:

    - [preprocessing/volume_processing.py]   ([Module VolumeProcessor])
    - [preprocessing/intensity_processing.py] ([Module IntensityProcessor])
    - [preprocessing/dicom_converter.py]     ([Module DicomConverter])
    - [pet_preprocessing.py]                 ([Module Pipeline])

    NumPy floating-point numbers are modelled by the IEEE 754 specification of
    the standard library ([spec_float], round to nearest even), with the
    format (precision, maximal exponent) as a parameter: [53, 1024] is
    [float64] (also Python's [float]) and [24, 128] is [float32]. *)

From Stdlib Require Import ZArith List Bool Lia String.
From Stdlib Require Import Floats.SpecFloat.
From Stdlib Require Import Sorting.Sorted Sorting.Permutation.
Import ListNotations.

Local Open Scope Z_scope.

(* ===================================================================== *)
(** * Python runtime: exceptions, logging, sequences *)
(* ===================================================================== *)

Module Py.

(** The exception classes the sources raise or catch by name. [OtherError]
    stands for any other subclass of [Exception] (decoder failures). *)
Inductive exn : Type :=
| AttributeError
| IndexError
| TypeError
| ValueError
| OtherError.

Inductive result (A : Type) : Type :=
| Ok (a : A)
| Raise (e : exn).
Arguments Ok {A} a.
Arguments Raise {A} e.

(** Records sent to the logger ['PreprocessingLogger']. *)
Inductive level : Type := INFO | WARNING | ERROR.

Definition log_record : Type := (level * string)%type.
Definition log : Type := list log_record.

(** Computations that may log and may raise: the log is threaded and is
    kept when an exception unwinds, as Python's handlers observe it. *)
Definition M (A : Type) : Type := log -> result A * log.

Definition ret {A} (a : A) : M A := fun l => (Ok a, l).

Definition bind {A B} (c : M A) (k : A -> M B) : M B :=
  fun l => match c l with
           | (Ok a, l') => k a l'
           | (Raise e, l') => (Raise e, l')
           end.

Definition raise {A} (e : exn) : M A := fun l => (Raise e, l).

Definition lift {A} (r : result A) : M A := fun l => (r, l).

Definition emit (lv : level) (msg : string) : M unit :=
  fun l => (Ok tt, l ++ [(lv, msg)]).

(** [try: c  except <classes>: h]; an exception outside [catches]
    propagates. *)
Definition try_except {A} (c : M A) (catches : exn -> bool) (h : exn -> M A) : M A :=
  fun l => match c l with
           | (Ok a, l') => (Ok a, l')
           | (Raise e, l') => if catches e then h e l' else (Raise e, l')
           end.

Definition any_exception (_ : exn) : bool := true.

(** [range(n)] and [range(n - 1, -1, -1)]. *)
Definition range (n : nat) : list Z := map Z.of_nat (seq 0 n).
Definition range_down (n : nat) : list Z := rev (range n).

(** [a[lo:hi]] with Python's treatment of negative and oversized bounds. *)
Definition slice_bound (len i : Z) : Z :=
  if i <? 0 then Z.max 0 (i + len) else Z.min i len.

Definition slice {A} (a : list A) (lo hi : Z) : list A :=
  let len := Z.of_nat (List.length a) in
  let lo' := slice_bound len lo in
  let hi' := slice_bound len hi in
  firstn (Z.to_nat (hi' - lo')) (skipn (Z.to_nat lo') a).

End Py.

Import Py.

Declare Scope py_scope.
Delimit Scope py_scope with py.
Notation "x <- c ;; k" := (bind c (fun x => k))
  (at level 61, c at next level, right associativity) : py_scope.
Notation "c ;;; k" := (bind c (fun _ => k))
  (at level 61, right associativity) : py_scope.

(* ===================================================================== *)
(** * Floating-point formats *)
(* ===================================================================== *)

Module Fp.

Abbreviation float := spec_float.

Section Format.
Variables prec emax : Z.

(** Conversion of an integer ([float(n)], [astype] from an integer
    dtype): the nearest number of the format. *)
Definition of_Z (n : Z) : float := binary_normalize prec emax n 0 false.

(** Conversion from another format ([astype], or a Python [float]
    meeting a narrower array): rounding of the exact value. *)
Definition of_float (x : float) : float :=
  match x with
  | S754_finite s m e => binary_round prec emax s m e
  | _ => x
  end.

(** The literal [1e-8]: the number of the format nearest to 10^-8. *)
Definition lit_1e_8 : float := SFdiv prec emax (of_Z 1) (of_Z 100000000).

(** The literal [1e6]. *)
Definition lit_1e6 : float := of_Z 1000000.

Definition one : float := of_Z 1.

(** A result of sign [s] that is neither a zero nor a NaN: an infinity, or
    a finite number whose exponent is not below the least exponent. *)
Definition positive_result (s : bool) (x : float) : Prop :=
  match x with
  | S754_infinity s' => s' = s
  | S754_finite s' _ e => s' = s /\ emin prec emax <= e
  | _ => False
  end.
End Format.

Definition zero : float := S754_zero false.

Definition is_nan (x : float) : bool :=
  match x with S754_nan => true | _ => false end.

Definition is_zero (x : float) : bool :=
  match x with S754_zero _ => true | _ => false end.

Definition is_finite (x : float) : bool :=
  match x with S754_zero _ | S754_finite _ _ _ => true | _ => false end.

(** [x > y] and [x >= y]. *)
Definition SFgtb (x y : float) : bool :=
  match SFcompare x y with Some Gt => true | _ => false end.

Definition SFgeb (x y : float) : bool :=
  match SFcompare x y with Some (Gt | Eq) => true | _ => false end.

(** [np.minimum] and [np.maximum] on two numbers: a NaN propagates. *)
Definition minimum (a b : float) : float :=
  if is_nan a then a else if is_nan b then b else if SFltb b a then b else a.

Definition maximum (a b : float) : float :=
  if is_nan a then a else if is_nan b then b else if SFltb a b then b else a.

(** [np.min] and [np.max] of all the elements of an array (given in
    row-major order); they raise [ValueError] on an array of size zero. *)
Definition amin (a : list float) : result float :=
  match a with
  | [] => Raise ValueError
  | x :: t => Ok (fold_left minimum t x)
  end.

Definition amax (a : list float) : result float :=
  match a with
  | [] => Raise ValueError
  | x :: t => Ok (fold_left maximum t x)
  end.

End Fp.

Import Fp.

(* ===================================================================== *)
(** * volume_processing.py *)
(* ===================================================================== *)

Module VolumeProcessor.

Section Trim.
(** The dtype of the volume. *)
Variables prec emax : Z.

(** A depth slice (a 2-D array) and NumPy's mean of it: the reduction
    [np.mean(volume, axis=(1, 2))] is NumPy's own, its order of summation
    unspecified, so it is taken per slice as a parameter. *)
Context {Slice : Type}.
Variable slice_mean : Slice -> float.

Definition Volume : Type := list Slice.

Definition sub := SFsub prec emax.
Definition add := SFadd prec emax.
Definition div := SFdiv prec emax.

(** Lines 40-48: per-slice means, rescaled to [0, 1]. *)
Definition slice_intensities (volume : Volume) : list float :=
  map slice_mean volume.

Definition normalize_intensities (si : list float) : result (list float) :=
  match amax si, amin si with
  | Ok mx, Ok mn =>
      if SFgtb mx mn
      then Ok (map (fun x => div (sub x mn) (add (sub mx mn) (lit_1e_8 prec emax))) si)
      else Ok (map (fun _ => one prec emax) si)
  | Raise e, _ => Raise e
  | _, Raise e => Raise e
  end.

(** The threshold test of one slice: [>=] in keep-above mode, [<] in
    keep-below mode. *)
Definition meets (max_mode : bool) (threshold x : float) : bool :=
  if max_mode then SFgeb x threshold else SFltb x threshold.

(** [normalized_intensities[i]] for [i] in [range(depth)]. *)
Definition item (a : list float) (i : Z) : float :=
  nth (Z.to_nat i) a S754_nan.

(** [idx = default; for i in indices: if test(i): idx = i; break]. *)
Fixpoint scan (test : Z -> bool) (indices : list Z) (default : Z) : Z :=
  match indices with
  | [] => default
  | i :: rest => if test i then i else scan test rest default
  end.

(** Lines 51-78: the first and the last index meeting the test. *)
Definition find_range (depth : nat) (ni : list float) (threshold : float)
           (max_mode : bool) : Z * Z :=
  let test := fun i => meets max_mode threshold (item ni i) in
  let start_idx := scan test (range depth) 0 in
  let end_idx := scan test (range_down depth) (Z.of_nat depth - 1) in
  (start_idx, end_idx).

(** Lines 81-89: the minimum number of slices. The boolean tells whether
    the range was expanded (and the message logged). *)
Definition ensure_min (depth : Z) (min_slices_to_keep : Z) (r : Z * Z) : Z * Z * bool :=
  let '(start_idx, end_idx) := r in
  let total_slices := end_idx - start_idx + 1 in
  if total_slices <? min_slices_to_keep then
    let center := (start_idx + end_idx) / 2 in
    let half_min := min_slices_to_keep / 2 in
    let start_idx' := Z.max 0 (center - half_min) in
    let end_idx' := Z.min (depth - 1) (start_idx' + min_slices_to_keep - 1) in
    (start_idx', end_idx', true)
  else (start_idx, end_idx, false).

(** The final inclusive range [(start_idx, end_idx)] of line 92. *)
Definition final_range (volume : Volume) (intensity_threshold : float)
           (min_slices_to_keep : Z) (max_mode : bool) : result (Z * Z * bool) :=
  match normalize_intensities (slice_intensities volume) with
  | Ok ni =>
      let depth := List.length volume in
      Ok (ensure_min (Z.of_nat depth) min_slices_to_keep
                     (find_range depth ni intensity_threshold max_mode))
  | Raise e => Raise e
  end.

Definition trim_volume_by_threshold (volume : Volume) (intensity_threshold : float)
           (min_slices_to_keep : Z) (max_mode : bool) : M Volume :=
  (r <- lift (final_range volume intensity_threshold min_slices_to_keep max_mode) ;;
   let '(start_idx, end_idx, expanded) := r in
   (if expanded
    then emit INFO "Expanded range to meet minimum slice requirement"
    else ret tt) ;;;
   ret (slice volume start_idx (end_idx + 1)))%py.

End Trim.

(** A concrete slice type: a 2-D array as a list of rows, with the mean
    taken by a left-to-right sum. *)
Definition Slice2D : Type := list (list float).

Definition sum_mean (prec emax : Z) (s : Slice2D) : float :=
  let flat := List.concat s in
  SFdiv prec emax (fold_left (SFadd prec emax) flat zero)
        (of_Z prec emax (Z.of_nat (List.length flat))).

End VolumeProcessor.

(* ===================================================================== *)
(** * NumPy arrays and the DICOM metadata record *)
(* ===================================================================== *)

Module Np.

(** An array of floating-point numbers of any rank: its elements in
    row-major order and the element-wise application of a function. *)
Class NdArray (A : Type) : Type := {
  elements : A -> list float;
  elementwise : (float -> float) -> A -> A
}.

#[export] Instance NdArray_scalar : NdArray float := {
  elements := fun x => [x];
  elementwise := fun f x => f x
}.

#[export] Instance NdArray_list {A} `{NdArray A} : NdArray (list A) := {
  elements := fun a => List.concat (map elements a);
  elementwise := fun f a => map (elementwise f) a
}.

(** A 2-D array as the list of its rows; [shape] of a rectangular array. *)
Definition Array2 (A : Type) : Type := list (list A).

Definition shape {A} (a : Array2 A) : nat * nat :=
  (List.length a, match a with [] => O | row :: _ => List.length row end).

Definition shape_eqb (s t : nat * nat) : bool :=
  Nat.eqb (fst s) (fst t) && Nat.eqb (snd s) (snd t).

(** [np.stack(arrays, axis=0)]: the arrays must all have one shape. *)
Definition stack {A} (arrays : list (Array2 A)) : result (list (Array2 A)) :=
  match arrays with
  | [] => Raise ValueError
  | a :: rest =>
      if forallb (fun b => shape_eqb (shape b) (shape a)) rest
      then Ok arrays else Raise ValueError
  end.

End Np.

Import Np.

Module Dicom.

(** Attribute access on a pydicom dataset: the attribute is absent
    ([hasattr] is false), present with an empty value ([None]), or present
    with a value. *)
Inductive attr (A : Type) : Type :=
| Missing
| PyNone
| Value (a : A).
Arguments Missing {A}.
Arguments PyNone {A}.
Arguments Value {A} a.

Definition hasattr {A} (a : attr A) : bool :=
  match a with Missing => false | _ => true end.

Definition is_None {A} (a : attr A) : bool :=
  match a with PyNone => true | _ => false end.

(** [obj.name] where [hasattr(obj, 'name')] holds (every access in the
    sources is guarded by it): the value, or Python's [None]. *)
Definition get {A} (a : attr A) : option A :=
  match a with
  | Value v => Some v
  | _ => None
  end.

(** [float(v)] for a decimal-string value (a Python float) or [None]. *)
Definition float_of (v : option float) : result float :=
  match v with
  | Some x => Ok x
  | None => Raise TypeError
  end.

(** [float(v)] for an integer-string value or [None]. *)
Definition float_of_int (v : option Z) : result float :=
  match v with
  | Some n => Ok (of_Z 53 1024 n)
  | None => Raise TypeError
  end.

(** Truth value of a sequence-valued attribute: [None] and the empty
    sequence are false. *)
Definition truthy {A} (v : option (list A)) : bool :=
  match v with
  | Some (_ :: _) => true
  | _ => false
  end.

(** [seq[i]]: [TypeError] on [None], [IndexError] out of range. *)
Definition getitem {A} (v : option (list A)) (i : nat) : result A :=
  match v with
  | None => Raise TypeError
  | Some l => match nth_error l i with
              | Some x => Ok x
              | None => Raise IndexError
              end
  end.

Record RphInfo : Type := {
  RadionuclideTotalDose : attr float
}.

(** The metadata the pipeline reads, and the decoded pixel grid (stored
    integer values; decoding it may fail). *)
Record Dataset : Type := {
  Modality : string;
  PatientWeight : attr float;
  RadiopharmaceuticalInformationSequence : attr (list RphInfo);
  ImagePositionPatient : attr (list float);
  SliceLocation : attr float;
  InstanceNumber : attr Z;
  pixel_array : result (Array2 Z)
}.

(** A [.dcm] file found under the study directory and what [dcmread]
    makes of it. *)
Record DcmFile : Type := {
  file_name : string;
  dcmread : result Dataset
}.

End Dicom.

Import Dicom.

(* ===================================================================== *)
(** * intensity_processing.py *)
(* ===================================================================== *)

Module IntensityProcessor.

(** [image.astype(np.float32)] of an integer pixel grid. *)
Definition astype_float32 (image : Array2 Z) : Array2 float :=
  map (map (of_Z 24 128)) image.

(** Line 77: the dose of the first sequence item, as a Python float. *)
Definition dose_of (raw : float) : float :=
  SFdiv 53 1024 raw (lit_1e6 53 1024).

(** Line 83: a float32 array times and over Python floats stays float32;
    the scalars are rounded to float32 first. *)
Definition suv_pixel (weight dose : float) (p : Z) : float :=
  SFdiv 24 128 (SFmul 24 128 (of_Z 24 128 p) (of_float 24 128 weight))
        (of_float 24 128 dose).

Definition _convert_to_suv (image : Array2 Z) (metadata : Dataset) : M (Array2 float) :=
  try_except
    (if negb (hasattr (PatientWeight metadata)) || is_None (PatientWeight metadata)
     then emit WARNING "Skipping SUV conversion: PatientWeight is missing or None" ;;;
          ret (astype_float32 image)
     else
     if negb (hasattr (RadiopharmaceuticalInformationSequence metadata))
        || negb (truthy (get (RadiopharmaceuticalInformationSequence metadata)))
     then emit WARNING "Skipping SUV conversion: RadiopharmaceuticalInformationSequence is missing" ;;;
          ret (astype_float32 image)
     else
     weight <- lift (float_of (get (PatientWeight metadata))) ;;
     rph_info <- lift (getitem (get (RadiopharmaceuticalInformationSequence metadata)) 0) ;;
     if negb (hasattr (RadionuclideTotalDose rph_info)) || is_None (RadionuclideTotalDose rph_info)
     then emit WARNING "Skipping SUV conversion: RadionuclideTotalDose is missing or None" ;;;
          ret (astype_float32 image)
     else
     raw <- lift (float_of (get (RadionuclideTotalDose rph_info))) ;;
     let dose := dose_of raw in
     if SFeqb dose zero
     then emit WARNING "Skipping SUV conversion: RadionuclideTotalDose is zero" ;;;
          ret (astype_float32 image)
     else ret (map (map (suv_pixel weight dose)) image))%py
    any_exception
    (fun _ => emit ERROR "Could not convert to SUV" ;;; ret (astype_float32 image))%py.

Section Normalize.
(** The dtype of the array. *)
Variables prec emax : Z.
Context {A : Type} `{NdArray A}.

(** Line 101, one element. *)
Definition rescale (mn mx x : float) : float :=
  SFdiv prec emax (SFsub prec emax x mn)
        (SFadd prec emax (SFsub prec emax mx mn) (lit_1e_8 prec emax)).

Definition _normalize (image : A) : M A :=
  try_except
    (mn <- lift (amin (elements image)) ;;
     mx <- lift (amax (elements image)) ;;
     ret (elementwise (rescale mn mx) image))%py
    any_exception
    (fun _ => emit ERROR "Normalization failed" ;;; ret image)%py.
End Normalize.

Section Convert.
(** [_convert_to_hu] is not defined in the class: the Hounsfield
    conversion of CT slices is taken as a parameter. *)
Variable _convert_to_hu : Array2 Z -> Dataset -> M (Array2 float).

Fixpoint convert_loop (normalize : bool) (slices : list (Array2 Z * Dataset))
         (converted_slices : list (Array2 float)) : M (list (Array2 float)) :=
  match slices with
  | [] => ret converted_slices
  | (image, metadata) :: rest =>
      (converted_img <- (if String.eqb (Modality metadata) "CT"
                         then _convert_to_hu image metadata
                         else _convert_to_suv image metadata) ;;
       converted_img <- (if normalize
                         then _normalize 24 128 converted_img
                         else ret converted_img) ;;
       convert_loop normalize rest (converted_slices ++ [converted_img]))%py
  end.

Definition convert (slices : list (Array2 Z * Dataset)) (normalize : bool)
  : M (list (Array2 float)) :=
  convert_loop normalize slices [].
End Convert.

End IntensityProcessor.

(* ===================================================================== *)
(** * dicom_converter.py *)
(* ===================================================================== *)

Module DicomConverter.

Definition catches_attr_index_type (e : exn) : bool :=
  match e with AttributeError | IndexError | TypeError => true | _ => false end.

Definition catches_attr_type (e : exn) : bool :=
  match e with AttributeError | TypeError => true | _ => false end.

(** Lines 88-114. Each [try] block yields [Some z] when it returns [z]
    and [None] when control falls out of it. *)
Definition _get_z_position (dicom_dataset : Dataset) : M float :=
  (r <- try_except
          (if hasattr (ImagePositionPatient dicom_dataset)
              && truthy (get (ImagePositionPatient dicom_dataset))
           then z <- lift (getitem (get (ImagePositionPatient dicom_dataset)) 2) ;;
                ret (Some z)
           else ret None)
          catches_attr_index_type (fun _ => ret None) ;;
   match r with
   | Some z => ret z
   | None =>
   r <- try_except
          (if hasattr (SliceLocation dicom_dataset)
              && negb (is_None (SliceLocation dicom_dataset))
           then z <- lift (float_of (get (SliceLocation dicom_dataset))) ;;
                ret (Some z)
           else ret None)
          catches_attr_type (fun _ => ret None) ;;
   match r with
   | Some z => ret z
   | None =>
   r <- try_except
          (if hasattr (InstanceNumber dicom_dataset)
           then z <- lift (float_of_int (get (InstanceNumber dicom_dataset))) ;;
                ret (Some z)
           else ret None)
          catches_attr_type (fun _ => ret None) ;;
   match r with
   | Some z => ret z
   | None =>
       emit WARNING "Could not determine z-position, using 0 as fallback" ;;;
       ret zero
   end end end)%py.

(** A loaded slice: [(z_pos, ds.pixel_array, ds)]. *)
Definition Loaded : Type := (float * Array2 Z * Dataset)%type.

Definition key (x : Loaded) : float := fst (fst x).

(** [list.sort(key=...)]: Python's sort is stable and compares keys with
    [<] only. It is modelled by the stable insertion sort that moves an
    element left of another only when its key is strictly smaller. On keys
    that are numbers every stable sort returns the same list
    ([SortFacts.stable_sorted_unique]), so this is the list Python returns.
    With a NaN among the keys [<] is no order, what
    Python returns depends on the merge strategy of the interpreter, and
    this definition does not stand for it: the statements about the order
    of the result carry the hypothesis that no key is a NaN. *)
Section Sort.
Context {T : Type}.
Variable keyf : T -> float.

Fixpoint insert (x : T) (l : list T) : list T :=
  match l with
  | [] => [x]
  | y :: l' => if SFltb (keyf y) (keyf x) then y :: insert x l' else x :: l
  end.

Definition list_sort (l : list T) : list T :=
  fold_right insert [] l.
End Sort.

(** Lines 63-71: the loop over the files. *)
Fixpoint load (files : list DcmFile) (slices : list Loaded) : M (list Loaded) :=
  match files with
  | [] => ret slices
  | file :: rest =>
      (slices' <- try_except
                    (ds <- lift (dcmread file) ;;
                     z_pos <- _get_z_position ds ;;
                     px <- lift (pixel_array ds) ;;
                     ret (slices ++ [(z_pos, px, ds)]))
                    any_exception
                    (fun _ => emit WARNING "Skipped file" ;;; ret slices) ;;
       load rest slices')%py
  end.

(** [files] is the result of [dicom_path.rglob('*.dcm')]. *)
Definition to_2d_array (files : list DcmFile) : M (list (Array2 Z * Dataset)) :=
  (emit INFO "Found DICOM files" ;;;
   slices <- load files [] ;;
   let slices := list_sort key slices in
   emit INFO "Successfully loaded and sorted slices by z-position." ;;;
   ret (map (fun x : Loaded => (snd (fst x), snd x)) slices))%py.

Section Stack.
(** [skimage.transform.resize] to a square of the target size. *)
Variable resize : Array2 float -> nat -> Array2 float.

Fixpoint resize_loop (target_size : nat) (slices resized_slices : list (Array2 float))
  : M (list (Array2 float)) :=
  match slices with
  | [] => ret resized_slices
  | slice_img :: rest =>
      (if shape_eqb (shape slice_img) (target_size, target_size)
       then resize_loop target_size rest (resized_slices ++ [slice_img])
       else emit INFO "Resizing slice" ;;;
            resize_loop target_size rest
                        (resized_slices ++ [resize slice_img target_size]))%py
  end.

Definition to_3d_array (slices : list (Array2 float)) (target_size : nat)
  : M (list (Array2 float)) :=
  match slices with
  | [] => raise ValueError
  | _ =>
      (resized_slices <- resize_loop target_size slices [] ;;
       emit INFO "Stacking slices into 3D volume" ;;;
       lift (stack resized_slices))%py
  end.
End Stack.

(** [path / name]. *)
Definition path_join (dir name : string) : string := (dir ++ "/" ++ name)%string.

Section Save.
(** The file system: [Path.mkdir(parents=True, exist_ok=True)] and
    [np.save(file_path, volume)]. *)
Variable mkdir : string -> result unit.
Variable np_save : string -> list (Array2 float) -> result unit.

(** Lines 19-33. The directory is made outside the [try]: what [mkdir]
    raises propagates; what [np.save] raises is logged and swallowed. Python
    returns [None]; the value here tells whether the array was written. *)
Definition save_pet_volume (output_path patient_id : string)
           (volume : list (Array2 float)) (label : string) : M bool :=
  (let disease_output_path := path_join output_path label in
   lift (mkdir disease_output_path) ;;;
   try_except
     (let filename := (patient_id ++ ".npy")%string in
      let file_path := path_join disease_output_path filename in
      lift (np_save file_path volume) ;;;
      emit INFO "PET volume saved" ;;;
      ret true)
     any_exception
     (fun _ => emit ERROR "Error saving PET volume" ;;; ret false))%py.
End Save.

End DicomConverter.

(* ===================================================================== *)
(** * pet_preprocessing.py *)
(* ===================================================================== *)

Module Pipeline.

(** What one study leaves behind when the function returns: nothing
    (skipped), the array written under the disease label, or the array that
    [np.save] failed to write. *)
Inductive outcome : Type :=
| Skipped
| Saved (label : string) (volume : list (Array2 float))
| SaveFailed (label : string) (volume : list (Array2 float)).

Section Study.
Variable _convert_to_hu : Array2 Z -> Dataset -> M (Array2 float).
Variable resize : Array2 float -> nat -> Array2 float.
(** [np.mean] of one float32 slice. *)
Variable slice_mean : Array2 float -> float.
(** The file system under the output root. *)
Variable mkdir : string -> result unit.
Variable np_save : string -> list (Array2 float) -> result unit.

(** Lines 33-72. [patient_id] is [dataset_dir.name] and [files] is
    [dataset_dir.rglob('*.dcm')]; the Python float [threshold] meets a
    float32 array and is rounded to float32. *)
Definition preprocess_pet_patient_data (output_path patient_id : string)
           (files : list DcmFile) (disease_code : string)
           (threshold : float) (max_mode : bool) : M outcome :=
  (emit INFO "=====< PRE-PROCESSING PET PATIENT >=====" ;;;
   try_except
     (match files with
      | [] =>
          emit INFO "Skipping PET patient due to missing DICOM files." ;;;
          ret Skipped
      | _ =>
          slices <- DicomConverter.to_2d_array files ;;
          slices <- IntensityProcessor.convert _convert_to_hu slices false ;;
          volume <- DicomConverter.to_3d_array resize slices 128 ;;
          volume <- IntensityProcessor._normalize 24 128 volume ;;
          emit INFO "Volume shape after stacking and resizing" ;;;
          trimmed_volume <- VolumeProcessor.trim_volume_by_threshold
                              24 128 slice_mean volume
                              (of_float 24 128 threshold) 8 max_mode ;;
          emit INFO "Trimmed volume shape with threshold" ;;;
          written <- DicomConverter.save_pet_volume mkdir np_save output_path patient_id
                       trimmed_volume disease_code ;;
          emit INFO "---------- Successfully processed PET patient ----------" ;;;
          ret (if written : bool
               then Saved disease_code trimmed_volume
               else SaveFailed disease_code trimmed_volume)
      end)
     any_exception
     (fun e => emit ERROR "Error processing PET patient" ;;; raise e))%py.
End Study.

End Pipeline.

(* ===================================================================== *)
(** * utils/logger.py *)
(* ===================================================================== *)

Module Logging.

(** The handlers [setup_logger] creates, with their format string. *)
Inductive Handler : Type :=
| StreamHandler (fmt : string)
| FileHandler (file : string) (fmt : string).

(** A logger of the [logging] module: its level ([None] is NOTSET) and its
    handlers. *)
Record Logger : Type := {
  lg_level : option level;
  lg_handlers : list Handler
}.

(** The process-wide registry behind [logging.getLogger(name)]: a logger
    not asked for before is a fresh one. *)
Definition Registry : Type := string -> Logger.

Definition fresh : Logger := {| lg_level := None; lg_handlers := [] |}.

Definition no_loggers : Registry := fun _ => fresh.

Definition register (reg : Registry) (name : string) (lg : Logger) : Registry :=
  fun n => if String.eqb n name then lg else reg n.

(** [log_path / log_filename]. *)
Definition join (dir name : string) : string := (dir ++ "/" ++ name)%string.

Definition formatter : string := "%(asctime)s - %(levelname)s - %(message)s".

Section Setup.
(** The file system: [Path.mkdir(parents=True, exist_ok=True)] and the
    opening of the log file by [logging.FileHandler]. *)
Variable mkdir : string -> result unit.
Variable open_file : string -> result unit.

(** Lines 17-36. The result is the exception raised, if any, and the
    registry as the call leaves it. *)
Definition setup_logger (log_path log_filename logger_name : string) (reg : Registry)
  : result unit * Registry :=
  let log_file := join log_path log_filename in
  match mkdir log_path with
  | Raise e => (Raise e, reg)
  | Ok _ =>
      let logger := reg logger_name in
      let reg := register reg logger_name
                          {| lg_level := Some INFO; lg_handlers := lg_handlers logger |} in
      match lg_handlers logger with
      | [] =>
          match open_file log_file with
          | Raise e => (Raise e, reg)
          | Ok _ =>
              (Ok tt,
               register reg logger_name
                        {| lg_level := Some INFO;
                           lg_handlers := [StreamHandler formatter;
                                           FileHandler log_file formatter] |})
          end
      | _ :: _ => (Ok tt, reg)
      end
  end.
End Setup.

End Logging.

(* ===================================================================== *)
(** * pet_preprocessing.py: the driver *)
(* ===================================================================== *)

Module Driver.
Import Logging.

(** An entry of a disease directory: its name, whether it is a directory,
    and the [.dcm] files found under it. *)
Record PatientEntry : Type := {
  p_name : string;
  p_is_dir : bool;
  p_files : list DcmFile
}.

(** An entry of the root directory [data/raw/PET]. *)
Record DiseaseEntry : Type := {
  d_name : string;
  d_is_dir : bool;
  d_entries : list PatientEntry
}.

(** [entry.is_dir() and not entry.name.startswith('.')]. *)
Definition visible (name : string) (is_dir : bool) : bool :=
  is_dir && negb (String.prefix "." name).

(** Line 89, each threshold with the text it has in a path. *)
Definition threshold_values : list (float * string) :=
  Eval vm_compute in
    [ (SFdiv 53 1024 (of_Z 53 1024 5) (of_Z 53 1024 10), "0.5"%string);
      (SFdiv 53 1024 (of_Z 53 1024 6) (of_Z 53 1024 10), "0.6"%string);
      (SFdiv 53 1024 (of_Z 53 1024 7) (of_Z 53 1024 10), "0.7"%string);
      (SFdiv 53 1024 (of_Z 53 1024 8) (of_Z 53 1024 10), "0.8"%string) ].

(** Line 79. *)
Definition max_mode : bool := false.

Definition output_path (threshold_text : string) : string :=
  ("data/preprocessed/PET/" ++ (if max_mode then "up" else "down")
     ++ "_threshold_" ++ threshold_text)%string.

Section Main.
Variable _convert_to_hu : Array2 Z -> Dataset -> M (Array2 float).
Variable resize : Array2 float -> nat -> Array2 float.
Variable slice_mean : Array2 float -> float.
Variable mkdir : string -> result unit.
Variable np_save : string -> list (Array2 float) -> result unit.
Variable open_file : string -> result unit.
Variable path_exists : string -> bool.

(** Lines 110-112. *)
Fixpoint patients_loop (pet_output_path : string) (threshold : float)
         (disease_code : string) (entries : list PatientEntry) : M unit :=
  match entries with
  | [] => ret tt
  | patient_dir :: rest =>
      ((if visible (p_name patient_dir) (p_is_dir patient_dir)
        then Pipeline.preprocess_pet_patient_data _convert_to_hu resize slice_mean
               mkdir np_save pet_output_path (p_name patient_dir)
               (p_files patient_dir) disease_code threshold max_mode ;;; ret tt
        else ret tt) ;;;
       patients_loop pet_output_path threshold disease_code rest)%py
  end.

(** Lines 104-112. *)
Fixpoint diseases_loop (pet_output_path : string) (threshold : float)
         (root : list DiseaseEntry) : M unit :=
  match root with
  | [] => ret tt
  | disease_dir :: rest =>
      ((if visible (d_name disease_dir) (d_is_dir disease_dir)
        then emit INFO "Processing PET disease" ;;;
             patients_loop pet_output_path threshold (d_name disease_dir)
                           (d_entries disease_dir)
        else ret tt) ;;;
       diseases_loop pet_output_path threshold rest)%py
  end.

(** Lines 95-112. *)
Fixpoint thresholds_loop (thresholds : list (float * string)) (root : list DiseaseEntry)
  : M unit :=
  match thresholds with
  | [] => ret tt
  | (threshold, text) :: rest =>
      (emit INFO "===== PROCESSING WITH THRESHOLD =====" ;;;
       lift (mkdir (output_path text)) ;;;
       diseases_loop (output_path text) threshold root ;;;
       thresholds_loop rest root)%py
  end.

(** Lines 118-126. *)
Fixpoint summary_loop (thresholds : list (float * string)) : M unit :=
  match thresholds with
  | [] => ret tt
  | (_, text) :: rest =>
      ((if path_exists (output_path text)
        then emit INFO "Down Threshold: processed volumes"
        else emit INFO "Down Threshold: No output directory found") ;;;
       summary_loop rest)%py
  end.

(** Lines 75-126. [root] lists [data/raw/PET]; the logger registry is
    threaded beside the log. *)
Definition main (root : list DiseaseEntry) (reg : Registry) : (result unit * log) * Registry :=
  match setup_logger mkdir open_file "backend/src/logs" "pet_preprocessing.log"
                     "PreprocessingLogger" reg with
  | (Raise e, reg') => ((Raise e, []), reg')
  | (Ok _, reg') =>
      ((emit INFO "=====< STARTING PET DATA PREPROCESSING WITH INTENSITY THRESHOLDS >=====" ;;;
        emit INFO "Mode: PROCESSING IMAGES WITH LOWER INTENSITY VALUES threshold" ;;;
        thresholds_loop threshold_values root ;;;
        emit INFO "=====< PET DATA PREPROCESSING COMPLETED FOR ALL THRESHOLDS >=====" ;;;
        emit INFO "===== PREPROCESSING SUMMARY =====" ;;;
        summary_loop threshold_values)%py [],
       reg')
  end.
End Main.

End Driver.

(* ===================================================================== *)
(** * Vocabulary of the statements *)
(* ===================================================================== *)

Module TrimSpec.

(** The re-centring as the specification words it: floor midpoint,
    expansion by half the minimum to a window of the minimum length,
    clamping to [0, depth - 1], and, when the upper bound clamps, the
    lower bound extended downward so that the minimum length is met. *)
Definition recenter_spec (depth : Z) (min_slices_to_keep : Z) (r : Z * Z) : Z * Z :=
  let '(start_idx, end_idx) := r in
  let center := (start_idx + end_idx) / 2 in
  let half_min := min_slices_to_keep / 2 in
  let lo := Z.max 0 (center - half_min) in
  let hi := lo + min_slices_to_keep - 1 in
  if depth - 1 <? hi
  then (Z.max 0 (depth - min_slices_to_keep), depth - 1)
  else (lo, hi).

End TrimSpec.

Module Loader.
Import DicomConverter.

(** The third component of a spatial position, when there is one. *)
Definition third_component (ipp : attr (list float)) : option float :=
  match ipp with
  | Value l => nth_error l 2
  | _ => None
  end.

(** The z-position [_get_z_position] resolves for a dataset, and the
    records it logs on the way. *)
Definition z_of (ds : Dataset) : float :=
  match fst (_get_z_position ds []) with
  | Ok z => z
  | Raise _ => S754_nan
  end.

Definition z_log (ds : Dataset) : log := snd (_get_z_position ds []).

(** A file decodes when [dcmread] and the pixel decoder both succeed. *)
Definition decode (file : DcmFile) : option (Array2 Z * Dataset) :=
  match dcmread file with
  | Ok ds => match pixel_array ds with
             | Ok px => Some (px, ds)
             | Raise _ => None
             end
  | Raise _ => None
  end.

Definition decodable (file : DcmFile) : bool :=
  match decode file with Some _ => true | None => false end.

(** The decodable slices of a study, in the order of its files. *)
Definition decoded (files : list DcmFile) : list (Array2 Z * Dataset) :=
  flat_map (fun file => match decode file with Some x => [x] | None => [] end) files.

(** The slice's ordering key and the order on keys. *)
Definition z_key (x : Array2 Z * Dataset) : float := z_of (snd x).



End Loader.

Module Conversion.
Import IntensityProcessor.

(** A finite number that holds exactly the integer [z]: its value
    [m * 2^e], with [e <= 0], is [z]. *)
Definition represents (x : float) (z : Z) : Prop :=
  match x with
  | S754_zero _ => z = 0
  | S754_finite s m e => e <= 0 /\ z * 2 ^ (- e) = (if s then Z.neg m else Z.pos m)
  | _ => False
  end.

(** The integer a float holds, when its value [m * 2^e] is one. *)
Definition integer_value (x : float) : option Z :=
  match x with
  | S754_zero _ => Some 0
  | S754_finite s m e =>
      let n := if s then Z.neg m else Z.pos m in
      if 0 <=? e then Some (n * 2 ^ e)
      else if n mod 2 ^ (- e) =? 0 then Some (n / 2 ^ (- e)) else None
  | _ => None
  end.

(** The four warnings of a skipped SUV conversion, in the order of the
    checks. *)
Definition skip_warnings : list string :=
  [ "Skipping SUV conversion: PatientWeight is missing or None";
    "Skipping SUV conversion: RadiopharmaceuticalInformationSequence is missing";
    "Skipping SUV conversion: RadionuclideTotalDose is missing or None";
    "Skipping SUV conversion: RadionuclideTotalDose is zero" ]%string.

(** The array [_convert_to_suv] returns for a slice, and what it logs. *)
Definition suv_result (image : Array2 Z) (metadata : Dataset) : Array2 float :=
  match fst (_convert_to_suv image metadata []) with
  | Ok a => a
  | Raise _ => []
  end.

Definition suv_log (image : Array2 Z) (metadata : Dataset) : log :=
  snd (_convert_to_suv image metadata []).

(** The array [_normalize] returns, and what it logs. *)
Definition normalize_result (prec emax : Z) {A} `{NdArray A} (image : A) : A :=
  match fst (_normalize prec emax image []) with
  | Ok a => a
  | Raise _ => image
  end.

Definition normalize_log (prec emax : Z) {A} `{NdArray A} (image : A) : log :=
  snd (_normalize prec emax image []).

(** What [convert] does to a converted slice: normalised when the flag is
    set. *)
Definition post (normalize : bool) (a : Array2 float) : Array2 float :=
  if normalize then normalize_result 24 128 a else a.

(** No slice of the list is a CT slice. *)
Definition no_CT (slices : list (Array2 Z * Dataset)) : Prop :=
  Forall (fun x => String.eqb (Modality (snd x)) "CT" = false) slices.

End Conversion.

Module LoaderLog.
Import DicomConverter Loader.

Definition skipped : log_record := (WARNING, "Skipped file"%string).

Definition fallback : log_record :=
  (WARNING, "Could not determine z-position, using 0 as fallback"%string).

Definition resizing : log_record := (INFO, "Resizing slice"%string).

Definition level_eqb (a b : level) : bool :=
  match a, b with
  | INFO, INFO | WARNING, WARNING | ERROR, ERROR => true
  | _, _ => false
  end.

(** The number of records of a log equal to a given record. *)
Definition count (r : log_record) (l : log) : nat :=
  List.length (filter (fun x => level_eqb (fst x) (fst r) && String.eqb (snd x) (snd r)) l).

(** None of the three position attributes resolves. *)
Definition lacks_position (ds : Dataset) : bool :=
  match third_component (ImagePositionPatient ds), SliceLocation ds, InstanceNumber ds with
  | None, (Missing | PyNone), (Missing | PyNone) => true
  | _, _, _ => false
  end.

(** The file reads ([dcmread] succeeds) but no position resolves. *)
Definition reads_without_position (file : DcmFile) : bool :=
  match dcmread file with
  | Ok ds => lacks_position ds
  | Raise _ => false
  end.

(** What the loop of [to_2d_array] logs for one file. *)
Definition file_log (file : DcmFile) : log :=
  match dcmread file with
  | Ok ds => z_log ds ++ match pixel_array ds with
                         | Ok _ => []
                         | Raise _ => [skipped]
                         end
  | Raise _ => [skipped]
  end.

(** The slice already has the target shape. *)
Definition fits (target_size : nat) (a : Array2 float) : bool :=
  shape_eqb (shape a) (target_size, target_size).

End LoaderLog.

Module PipelineStages.
Import VolumeProcessor IntensityProcessor DicomConverter Pipeline.

Section Stages.
Variable _convert_to_hu : Array2 Z -> Dataset -> M (Array2 float).
Variable resize : Array2 float -> nat -> Array2 float.
Variable slice_mean : Array2 float -> float.
Variable mkdir : string -> result unit.
Variable np_save : string -> list (Array2 float) -> result unit.

(** What the pipeline does after the header, on a non-empty list of
    files. *)
Definition stages (output_path patient_id : string)
           (files : list DcmFile) (disease_code : string)
           (threshold : float) (max_mode : bool) : M outcome :=
  (slices <- to_2d_array files ;;
   slices <- convert _convert_to_hu slices false ;;
   volume <- to_3d_array resize slices 128 ;;
   volume <- _normalize 24 128 volume ;;
   emit INFO "Volume shape after stacking and resizing" ;;;
   trimmed_volume <- trim_volume_by_threshold 24 128 slice_mean volume
                       (of_float 24 128 threshold) 8 max_mode ;;
   emit INFO "Trimmed volume shape with threshold" ;;;
   written <- save_pet_volume mkdir np_save output_path patient_id
                trimmed_volume disease_code ;;
   emit INFO "---------- Successfully processed PET patient ----------" ;;;
   ret (if written : bool
        then Saved disease_code trimmed_volume
        else SaveFailed disease_code trimmed_volume))%py.

End Stages.

End PipelineStages.

Module DriverSpec.
Import Driver Loader.

(** The root directory without the entries the loops pass over: hidden
    entries and plain files, at both levels. *)
Definition prune_entries (entries : list PatientEntry) : list PatientEntry :=
  filter (fun p => visible (p_name p) (p_is_dir p)) entries.

Definition prune (root : list DiseaseEntry) : list DiseaseEntry :=
  map (fun d => {| d_name := d_name d; d_is_dir := d_is_dir d;
                   d_entries := prune_entries (d_entries d) |})
      (filter (fun d => visible (d_name d) (d_is_dir d)) root).

(** A study the loops reach that has files, none of which decodes. *)
Definition broken (p : PatientEntry) : bool :=
  visible (p_name p) (p_is_dir p)
  && negb (match p_files p with [] => true | _ => false end)
  && forallb (fun file => negb (decodable file)) (p_files p).

Definition has_broken_study (root : list DiseaseEntry) : bool :=
  existsb (fun d => visible (d_name d) (d_is_dir d) && existsb broken (d_entries d)) root.

End DriverSpec.

(* ===================================================================== *)
(** * Concrete inputs *)
(* ===================================================================== *)

Module Examples.
Import VolumeProcessor.

(** float64 numbers. *)
Definition f64 (n : Z) : float := of_Z 53 1024 n.
Definition half : float := Eval vm_compute in SFdiv 53 1024 (f64 1) (f64 2).

(** A float64 volume of 1 x 1 slices holding the given values; the mean
    of such a slice is its value. *)
Definition column (values : list float) : list Slice2D :=
  map (fun x => [[x]]) values.

(** Depth 10, only the last slice bright. *)
Definition bright_tail : list Slice2D :=
  column (map f64 [0; 0; 0; 0; 0; 0; 0; 0; 0; 1]).

(** Depth 4, only the last slice bright. *)
Definition short_tail : list Slice2D :=
  column (map f64 [0; 0; 0; 1]).

(** Ten means rising linearly from 0 to 1: [i / 9] for [i = 0 .. 9]. *)
Definition ramp10 : list float :=
  Eval vm_compute in map (fun i => SFdiv 53 1024 (f64 i) (f64 9)) (range 10).

(** The same ramp as [np.linspace(0, 1, 10)] computes it:
    [arange(10) * step + 0] with [step = 1 / 9], the last value set to 1.
    It differs from [ramp10] in the last bit of the value of index 7. *)
Definition linspace10 : list float :=
  Eval vm_compute in
    map (fun i => SFadd 53 1024
                    (SFmul 53 1024 (f64 i) (SFdiv 53 1024 (f64 1) (f64 9))) (f64 0))
        (range 9)
    ++ [f64 1].

(** The float64 volume of shape (1, 1, 2) holding 0 and 1. *)
Definition unit_volume : list (Array2 float) := [[[f64 0; f64 1]]].

(** A PET slice with one pixel of value 100, PatientWeight 70 and a total
    dose of 3.7e8. *)
Definition pet_pixel : Array2 Z := [[100]].

Definition pet_metadata : Dataset := {|
  Modality := "PT";
  PatientWeight := Value (f64 70);
  RadiopharmaceuticalInformationSequence :=
    Value [ {| RadionuclideTotalDose := Value (f64 370000000) |} ];
  ImagePositionPatient := Missing;
  SliceLocation := Missing;
  InstanceNumber := Missing;
  pixel_array := Ok pet_pixel
|}.

(** The same slice without a PatientWeight. *)
Definition pet_metadata_no_weight : Dataset := {|
  Modality := "PT";
  PatientWeight := Missing;
  RadiopharmaceuticalInformationSequence :=
    Value [ {| RadionuclideTotalDose := Value (f64 370000000) |} ];
  ImagePositionPatient := Missing;
  SliceLocation := Missing;
  InstanceNumber := Missing;
  pixel_array := Ok pet_pixel
|}.

(** A stored value of 2^24 + 1, which float32 does not hold. *)
Definition large_pixel : Array2 Z := [[16777217]].

(** Two files with z-positions 2.0 and 1.0, and one that does not read. *)
Definition slice_at (z : Z) : Dataset := {|
  Modality := "PT";
  PatientWeight := Missing;
  RadiopharmaceuticalInformationSequence := Missing;
  ImagePositionPatient := Value [f64 0; f64 0; f64 z];
  SliceLocation := Missing;
  InstanceNumber := Missing;
  pixel_array := Ok [[z]]
|}.

Definition study : list DcmFile :=
  [ {| file_name := "a.dcm"; dcmread := Ok (slice_at 2) |};
    {| file_name := "b.dcm"; dcmread := Raise OtherError |};
    {| file_name := "c.dcm"; dcmread := Ok (slice_at 1) |} ].



(** Two readable files whose datasets have no position attribute. *)
Definition unplaced_study : list DcmFile :=
  [ {| file_name := "a.dcm"; dcmread := Ok pet_metadata |};
    {| file_name := "b.dcm"; dcmread := Ok pet_metadata_no_weight |} ].

(** A 2 x 2 float32 slice, and a resampler that returns a grid of zeros of
    the target size. *)
Definition tile : Array2 float :=
  [[of_Z 24 128 1; of_Z 24 128 2]; [of_Z 24 128 3; of_Z 24 128 4]].

Definition blank (a : Array2 float) (target_size : nat) : Array2 float :=
  repeat (repeat zero target_size) target_size.

(** A study of one readable PET slice of 2 x 2 pixels. *)
Definition small_slice : Dataset := {|
  Modality := "PT";
  PatientWeight := Value (f64 70);
  RadiopharmaceuticalInformationSequence :=
    Value [ {| RadionuclideTotalDose := Value (f64 370000000) |} ];
  ImagePositionPatient := Value [f64 0; f64 0; f64 5];
  SliceLocation := Missing;
  InstanceNumber := Missing;
  pixel_array := Ok [[1; 2]; [3; 4]]
|}.

Definition small_study : list DcmFile :=
  [ {| file_name := "a.dcm"; dcmread := Ok small_slice |} ].

Definition broken_study : list DcmFile :=
  [ {| file_name := "a.dcm"; dcmread := Raise OtherError |};
    {| file_name := "b.dcm"; dcmread := Raise OtherError |} ].

End Examples.

(* ===================================================================== *)
(** * Facts about the Python runtime model *)
(* ===================================================================== *)

Module PyFacts.

Lemma range_length (n : nat) : List.length (range n) = n.
Proof. unfold range. now rewrite length_map, length_seq. Qed.

(** Slicing with in-range bounds is [skipn] then [firstn]. *)
Lemma slice_in_range {A} (a : list A) (lo hi : Z) :
  0 <= lo <= hi -> hi <= Z.of_nat (List.length a) ->
  slice a lo hi = firstn (Z.to_nat (hi - lo)) (skipn (Z.to_nat lo) a).
Proof.
  intros Hlo Hhi. unfold slice, slice_bound.
  destruct (Z.ltb_spec lo 0); [lia|].
  destruct (Z.ltb_spec hi 0); [lia|].
  now rewrite !Z.min_l by lia.
Qed.

Lemma slice_length {A} (a : list A) (lo hi : Z) :
  0 <= lo <= hi -> hi <= Z.of_nat (List.length a) ->
  List.length (slice a lo hi) = Z.to_nat (hi - lo).
Proof.
  intros Hlo Hhi. rewrite slice_in_range by assumption.
  rewrite length_firstn, length_skipn. lia.
Qed.

(** The [k]-th element of a slice is the element [lo + k] of the array. *)
Lemma slice_nth_error {A} (a : list A) (lo hi : Z) (k : nat) :
  0 <= lo <= hi -> hi <= Z.of_nat (List.length a) ->
  (k < Z.to_nat (hi - lo))%nat ->
  nth_error (slice a lo hi) k = nth_error a (Z.to_nat lo + k).
Proof.
  intros Hlo Hhi Hk. rewrite slice_in_range by assumption.
  rewrite nth_error_firstn.
  destruct (Nat.ltb_spec k (Z.to_nat (hi - lo))); [|lia].
  now rewrite nth_error_skipn.
Qed.

End PyFacts.

(* ===================================================================== *)
(** * The depth trimmer *)
(* ===================================================================== *)

Module TrimFacts.
Import VolumeProcessor TrimSpec PyFacts.

Section Scan.
Variable test : Z -> bool.

(** The forward loop stops at the first index that passes the test. *)
Lemma scan_up (n a : nat) (d : Z) :
  let r := scan test (map Z.of_nat (seq a n)) d in
  (r = d /\ forall j, Z.of_nat a <= j < Z.of_nat (a + n) -> test j = false)
  \/ (Z.of_nat a <= r < Z.of_nat (a + n) /\ test r = true).
Proof.
  revert a. induction n as [|n IH]; intros a; cbn -[Z.of_nat].
  - left. split; [reflexivity|]. intros j Hj. lia.
  - destruct (test (Z.of_nat a)) eqn:Ha.
    + right. split; [lia|assumption].
    + destruct (IH (S a)) as [[Hr Hall]|[Hr Ht]].
      * left. split; [exact Hr|]. intros j Hj.
        destruct (Z.eq_dec j (Z.of_nat a)) as [->|Hne]; [assumption|].
        apply Hall. lia.
      * right. split; [lia|assumption].
Qed.

(** The backward loop stops at the last index that passes the test. *)
Lemma scan_down (n a : nat) (d : Z) :
  let r := scan test (rev (map Z.of_nat (seq a n))) d in
  (r = d /\ forall j, Z.of_nat a <= j < Z.of_nat (a + n) -> test j = false)
  \/ (Z.of_nat a <= r < Z.of_nat (a + n) /\ test r = true
      /\ forall j, r < j < Z.of_nat (a + n) -> test j = false).
Proof.
  induction n as [|n IH]; cbn zeta.
  - left. split; [reflexivity|]. intros j Hj. lia.
  - cbn zeta in IH. rewrite seq_S, map_app, rev_app_distr. cbn -[Z.of_nat].
    destruct (test (Z.of_nat (a + n))) eqn:Ha.
    + right. split; [lia|]. split; [assumption|]. intros j Hj. lia.
    + destruct IH as [[Hr Hall]|[Hr [Ht Hall]]].
      * left. split; [exact Hr|]. intros j Hj.
        destruct (Z.eq_dec j (Z.of_nat (a + n))) as [->|Hne]; [assumption|].
        apply Hall. lia.
      * right. split; [lia|]. split; [assumption|]. intros j Hj.
        destruct (Z.eq_dec j (Z.of_nat (a + n))) as [->|Hne]; [assumption|].
        apply Hall. lia.
Qed.

(** The two loops of lines 51-78 select an ordered pair of valid
    indices: the range is never inverted. *)
Lemma scans_ordered (n : nat) :
  (1 <= n)%nat ->
  let s := scan test (range n) 0 in
  let e := scan test (range_down n) (Z.of_nat n - 1) in
  0 <= s <= e /\ e <= Z.of_nat n - 1.
Proof.
  intros Hn. unfold range, range_down, range.
  destruct (scan_up n 0 0) as [[Hs Hnone]|[Hs Hst]];
    destruct (scan_down n 0 (Z.of_nat n - 1)) as [[He Hnone']|[He [Het Hafter]]];
    cbn zeta in *; rewrite ?Nat.add_0_l in *; try lia.
  split; [|lia]. split; [lia|].
    destruct (Z.le_gt_cases
                (scan test (map Z.of_nat (seq 0 n)) 0)
                (scan test (rev (map Z.of_nat (seq 0 n))) (Z.of_nat n - 1)))
      as [Hle|Hgt]; [assumption|].
    rewrite Hafter in Hst by lia. discriminate.
Qed.
End Scan.

(** The range after the minimum-length step is still a valid index range. *)
Lemma ensure_min_bounds (depth m s e : Z) :
  0 <= s <= e -> e <= depth - 1 -> 1 <= m ->
  let '(s', e', _) := ensure_min depth m (s, e) in
  0 <= s' <= e' /\ e' <= depth - 1.
Proof.
  intros Hs He Hm. unfold ensure_min.
  destruct (Z.ltb_spec (e - s + 1) m); [|lia].
  assert (s <= (s + e) / 2 <= e) by (split; [apply Z.div_le_lower_bound|apply Z.div_le_upper_bound]; lia).
  assert (0 <= m / 2) by (apply Z.div_pos; lia).
  lia.
Qed.

(** When the upper bound does not clamp, the code's re-centring is the
    specified one and yields exactly the minimum number of slices. *)
Lemma ensure_min_unclamped (depth m s e : Z) :
  e - s + 1 < m ->
  Z.max 0 ((s + e) / 2 - m / 2) + m - 1 <= depth - 1 ->
  let '(s', e', _) := ensure_min depth m (s, e) in
  (s', e') = recenter_spec depth m (s, e) /\ e' - s' + 1 = m.
Proof.
  intros Hlt Hfit. unfold ensure_min, recenter_spec.
  destruct (Z.ltb_spec (e - s + 1) m); [|lia].
  destruct (Z.ltb_spec (depth - 1) (Z.max 0 ((s + e) / 2 - m / 2) + m - 1)); [lia|].
  rewrite Z.min_r by lia. split; [reflexivity|lia].
Qed.

(** When the window overruns the upper bound, the end index is clamped and
    the start index stays: fewer than the minimum number of slices remain. *)
Lemma ensure_min_clamped (depth m s e : Z) :
  e - s + 1 < m ->
  depth - 1 < Z.max 0 ((s + e) / 2 - m / 2) + m - 1 ->
  let '(s', e', _) := ensure_min depth m (s, e) in
  s' = Z.max 0 ((s + e) / 2 - m / 2) /\ e' = depth - 1 /\ e' - s' + 1 < m.
Proof.
  intros Hlt Hover. unfold ensure_min.
  destruct (Z.ltb_spec (e - s + 1) m); [|lia].
  rewrite Z.min_l by lia. lia.
Qed.

Section Trim.
Variables prec emax : Z.
Context {Slice : Type}.
Variable slice_mean : Slice -> float.

Lemma normalize_intensities_ok (si : list float) :
  si <> [] ->
  exists ni, normalize_intensities prec emax si = Ok ni
             /\ List.length ni = List.length si.
Proof.
  intros Hne. unfold normalize_intensities.
  destruct si as [|x t]; [contradiction|]. cbn [amax amin].
  destruct (SFgtb _ _); eexists; (split; [reflexivity|]); now rewrite length_map.
Qed.

Lemma normalize_intensities_empty :
  normalize_intensities prec emax [] = Raise ValueError.
Proof. reflexivity. Qed.

Lemma final_range_bounds (volume : list Slice) (thr : float) (m : Z) (mode : bool) :
  (1 <= List.length volume)%nat -> 1 <= m ->
  exists s e b,
    final_range prec emax slice_mean volume thr m mode = Ok (s, e, b)
    /\ 0 <= s <= e /\ e <= Z.of_nat (List.length volume) - 1.
Proof.
  intros Hd Hm. unfold final_range.
  destruct (normalize_intensities_ok (slice_intensities slice_mean volume))
    as [ni [Hni Hlen]].
  { unfold slice_intensities. destruct volume; [cbn in Hd; lia|discriminate]. }
  rewrite Hni. cbn zeta. unfold find_range.
  pose proof (scans_ordered (fun i => meets mode thr (item ni i))
                            (List.length volume) Hd) as Hord.
  cbn zeta in Hord.
  pose proof (ensure_min_bounds (Z.of_nat (List.length volume)) m _ _
                                (proj1 Hord) (proj2 Hord) Hm) as Hb.
  destruct (ensure_min _ _ _) as [[s e] b].
  exists s, e, b. split; [reflexivity|]. exact Hb.
Qed.
End Trim.

End TrimFacts.

Module TrimTheorems.
Import VolumeProcessor TrimSpec PyFacts TrimFacts Examples.

(** C10. For every volume of depth at least 1 and every minimum of at
    least 1, [trim_volume_by_threshold] does not raise and returns
    [volume[start : end + 1]] for indices [0 <= start <= end <= depth - 1]:
    a non-empty contiguous run of the input's depth slices, each one the
    input slice at the corresponding index. *)
Theorem trim_returns_nonempty_subrange :
  forall (prec emax : Z) (Slice : Type) (slice_mean : Slice -> float)
         (volume : list Slice) (threshold : float) (m : Z) (max_mode : bool) (l : log),
    (1 <= List.length volume)%nat -> 1 <= m ->
    exists (start_idx end_idx : Z) (l' : log),
      0 <= start_idx <= end_idx
      /\ end_idx <= Z.of_nat (List.length volume) - 1
      /\ trim_volume_by_threshold prec emax slice_mean volume threshold m max_mode l
         = (Ok (slice volume start_idx (end_idx + 1)), l')
      /\ List.length (slice volume start_idx (end_idx + 1))
         = Z.to_nat (end_idx - start_idx + 1)
      /\ forall k : nat,
           (k < Z.to_nat (end_idx - start_idx + 1))%nat ->
           nth_error (slice volume start_idx (end_idx + 1)) k
           = nth_error volume (Z.to_nat start_idx + k).
Proof.
  intros prec emax Slice slice_mean volume threshold m max_mode l Hd Hm.
  destruct (final_range_bounds prec emax slice_mean volume threshold m max_mode Hd Hm)
    as [s [e [b [Hfr [Hs He]]]]].
  exists s, e, (if b then l ++ [(INFO, "Expanded range to meet minimum slice requirement"%string)] else l).
  split; [exact Hs|]. split; [exact He|]. split.
  - unfold trim_volume_by_threshold, bind, lift. rewrite Hfr.
    destruct b; reflexivity.
  - split.
    + rewrite slice_length by lia. f_equal. lia.
    + intros k Hk. apply slice_nth_error; lia.
Qed.

Lemma trim_returns_nonempty_subrange_witness :
  exists (start_idx end_idx : Z) (l' : log),
    0 <= start_idx <= end_idx
    /\ end_idx <= Z.of_nat (List.length bright_tail) - 1
    /\ trim_volume_by_threshold 53 1024 (sum_mean 53 1024) bright_tail half 8 true []
       = (Ok (slice bright_tail start_idx (end_idx + 1)), l')
    /\ List.length (slice bright_tail start_idx (end_idx + 1))
       = Z.to_nat (end_idx - start_idx + 1)
    /\ forall k : nat,
         (k < Z.to_nat (end_idx - start_idx + 1))%nat ->
         nth_error (slice bright_tail start_idx (end_idx + 1)) k
         = nth_error bright_tail (Z.to_nat start_idx + k).
Proof.
  apply (trim_returns_nonempty_subrange 53 1024 Slice2D (sum_mean 53 1024)
           bright_tail half 8 true []).
  - vm_compute. lia.
  - lia.
Defined.

(** C1 (the code falls short). With depth 10, a minimum of 8 and only the
    last slice over the threshold, the range is re-centred on index 9 and
    clamped at the upper bound without being extended downward: five
    slices are returned. With depth 4 and a minimum of 5 the same step
    returns slices 1 to 3, not the whole input. *)
Theorem trim_keeps_fewer_than_minimum :
  (exists out,
      trim_volume_by_threshold 53 1024 (sum_mean 53 1024) bright_tail half 8 true []
      = (Ok out, [(INFO, "Expanded range to meet minimum slice requirement"%string)])
      /\ out = slice bright_tail 5 10
      /\ List.length bright_tail = 10%nat /\ List.length out = 5%nat)
  /\ (exists out,
      trim_volume_by_threshold 53 1024 (sum_mean 53 1024) short_tail half 5 true []
      = (Ok out, [(INFO, "Expanded range to meet minimum slice requirement"%string)])
      /\ out = slice short_tail 1 4
      /\ List.length short_tail = 4%nat /\ out <> short_tail).
Proof.
  split.
  - eexists. split; [vm_compute; reflexivity|].
    split; [vm_compute; reflexivity|]. split; reflexivity.
  - eexists. split; [vm_compute; reflexivity|].
    split; [vm_compute; reflexivity|]. split; [reflexivity|].
    vm_compute. discriminate.
Qed.

(** C2 (the code falls short). On the same volume the initial range is
    [(9, 9)], shorter than the minimum 8. The code ends with [(5, 9)]: the
    midpoint 9 less half the minimum, and the upper bound clamped to
    [depth - 1]. The re-centring as specified extends the clamped range
    downward to [(2, 9)], eight slices. *)
Theorem recentring_clamps_without_extending_down :
  (exists ni,
      normalize_intensities 53 1024 (slice_intensities (sum_mean 53 1024) bright_tail) = Ok ni
      /\ find_range 10 ni half true = (9, 9))
  /\ final_range 53 1024 (sum_mean 53 1024) bright_tail half 8 true = Ok (5, 9, true)
  /\ recenter_spec 10 8 (9, 9) = (2, 9)
  /\ ensure_min 10 8 (9, 9) = (5, 9, true).
Proof.
  split.
  { eexists. split; [vm_compute; reflexivity|]. vm_compute. reflexivity. }
  repeat split; vm_compute; reflexivity.
Qed.

(** C4. A float64 volume of depth 10 whose per-slice means rise linearly
    from 0 to 1 (the quotients [i / 9], or the values of
    [np.linspace(0, 1, 10)]), threshold 0.5 and a minimum of 2 slices:
    keep-above mode returns slices 5 to 9 and keep-below mode returns
    slices 0 to 4; nothing is logged. *)
Theorem trim_linear_ramp :
  forall (Slice : Type) (slice_mean : Slice -> float) (volume : list Slice) (l : log),
    slice_intensities slice_mean volume = ramp10
    \/ slice_intensities slice_mean volume = linspace10 ->
    trim_volume_by_threshold 53 1024 slice_mean volume half 2 true l
    = (Ok (slice volume 5 10), l)
    /\ slice volume 5 10 = skipn 5 volume
    /\ trim_volume_by_threshold 53 1024 slice_mean volume half 2 false l
       = (Ok (slice volume 0 5), l)
    /\ slice volume 0 5 = firstn 5 volume
    /\ List.length volume = 10%nat.
Proof.
  intros Slice slice_mean volume l H.
  assert (Hlen : List.length volume = 10%nat).
  { unfold slice_intensities in H.
    rewrite <- (length_map slice_mean). destruct H as [-> | ->]; reflexivity. }
  assert (Hup : final_range 53 1024 slice_mean volume half 2 true = Ok (5, 9, false)).
  { unfold final_range. rewrite Hlen.
    destruct H as [-> | ->]; vm_compute; reflexivity. }
  assert (Hdn : final_range 53 1024 slice_mean volume half 2 false = Ok (0, 4, false)).
  { unfold final_range. rewrite Hlen.
    destruct H as [-> | ->]; vm_compute; reflexivity. }
  repeat split.
  - unfold trim_volume_by_threshold, bind, lift. rewrite Hup. reflexivity.
  - rewrite slice_in_range by (rewrite ?Hlen; lia).
    change (Z.to_nat 5) with 5%nat. change (Z.to_nat (10 - 5)) with 5%nat.
    apply firstn_all2. rewrite length_skipn, Hlen. lia.
  - unfold trim_volume_by_threshold, bind, lift. rewrite Hdn. reflexivity.
  - rewrite slice_in_range by (rewrite ?Hlen; lia). reflexivity.
  - exact Hlen.
Qed.

Lemma trim_linear_ramp_witness :
  slice_intensities (sum_mean 53 1024) (column ramp10) = ramp10
  /\ trim_volume_by_threshold 53 1024 (sum_mean 53 1024) (column ramp10) half 2 true []
     = (Ok (slice (column ramp10) 5 10), [])
  /\ trim_volume_by_threshold 53 1024 (sum_mean 53 1024) (column ramp10) half 2 false []
     = (Ok (slice (column ramp10) 0 5), []).
Proof.
  assert (H : slice_intensities (sum_mean 53 1024) (column ramp10) = ramp10)
    by (vm_compute; reflexivity).
  split; [exact H|].
  destruct (trim_linear_ramp Slice2D (sum_mean 53 1024) (column ramp10) [] (or_introl H))
    as [Hup [_ [Hdn _]]].
  split; assumption.
Defined.

End TrimTheorems.

(* ===================================================================== *)
(** * Order on floating-point numbers *)
(* ===================================================================== *)

Module FpFacts.

Ltac cmp_cases :=
  repeat match goal with
         | H : context [Z.compare ?a ?b] |- _ =>
             destruct (Z.compare_spec a b); try lia; subst
         | |- context [Z.compare ?a ?b] =>
             destruct (Z.compare_spec a b); try lia; subst
         | H : context [Pos.compare_cont Eq ?a ?b] |- _ =>
             change (Pos.compare_cont Eq a b) with (Pos.compare a b) in H;
             destruct (Pos.compare_spec a b); try lia; subst
         | |- context [Pos.compare_cont Eq ?a ?b] =>
             change (Pos.compare_cont Eq a b) with (Pos.compare a b);
             destruct (Pos.compare_spec a b); try lia; subst
         end.

Ltac float_cases :=
  repeat match goal with
         | x : spec_float |- _ => destruct x as [[]|[]| |[] ? ?]
         end;
  cbn in *; try reflexivity; try discriminate; try congruence.

Ltac order_cases :=
  float_cases; cmp_cases; cbn in *; try reflexivity; try discriminate; try lia.




Lemma SFleb_ltb_false (x y : float) : SFleb x y = true -> SFltb y x = false.
Proof. unfold SFleb, SFltb. order_cases. Qed.





End FpFacts.

(* ===================================================================== *)
(** * The model of [list.sort] *)
(* ===================================================================== *)

Module SortFacts.
Import DicomConverter FpFacts.

Section Sort.
Context {T : Type}.
Variable keyf : T -> float.

Let le (a b : T) : Prop := SFleb (keyf a) (keyf b) = true.

Lemma insert_perm (x : T) (l : list T) : Permutation (insert keyf x l) (x :: l).
Proof.
  induction l as [|y l IH]; cbn; [reflexivity|].
  destruct (SFltb (keyf y) (keyf x)); [|reflexivity].
  rewrite IH. apply perm_swap.
Qed.

Lemma list_sort_perm (l : list T) : Permutation (list_sort keyf l) l.
Proof.
  induction l as [|x l IH]; cbn; [reflexivity|].
  rewrite insert_perm. now constructor.
Qed.






Lemma list_sort_sorted_id (l : list T) :
  StronglySorted le l -> list_sort keyf l = l.
Proof.
  induction 1 as [|x l Hs IH Hx]; [reflexivity|].
  cbn [list_sort fold_right]. fold (list_sort keyf l). rewrite IH.
  destruct l as [|y l']; [reflexivity|]. cbn [insert].
  inversion Hx; subst.
  now rewrite SFleb_ltb_false.
Qed.
End Sort.

(** Sorting tagged elements by their tag. *)
Lemma list_sort_map {T U : Type} (keyf : U -> float) (g : T -> U) (l : list T) :
  list_sort keyf (map g l) = map g (list_sort (fun a => keyf (g a)) l).
Proof.
  induction l as [|x l IH]; [reflexivity|].
  cbn [map list_sort fold_right]. fold (list_sort keyf (map g l)).
  fold (list_sort (fun a => keyf (g a)) l). rewrite IH.
  generalize (list_sort (fun a => keyf (g a)) l) as s.
  induction s as [|y s IHs]; [reflexivity|].
  cbn [map insert]. destruct (SFltb (keyf (g y)) (keyf (g x))); [|reflexivity].
  cbn [map]. now rewrite IHs.
Qed.

End SortFacts.

(* ===================================================================== *)
(** * The slice loader *)
(* ===================================================================== *)

Module LoaderFacts.
Import DicomConverter Loader FpFacts SortFacts.

(** [_get_z_position] never raises and its log only grows. *)
Lemma get_z_position_run (ds : Dataset) (l : log) :
  _get_z_position ds l = (Ok (z_of ds), l ++ z_log ds).
Proof.
  unfold z_of, z_log, _get_z_position, try_except, bind, lift, ret, emit.
  destruct ds as [md pw seq ipp sl inum px]; cbn.
  destruct ipp as [| |[|a [|b [|c t]]]]; cbn; rewrite ?app_nil_r; try reflexivity;
    destruct sl; cbn; rewrite ?app_nil_r; try reflexivity;
    destruct inum; cbn; rewrite ?app_nil_r; reflexivity.
Qed.

(** The loop keeps what it had and appends the decodable files, tagged
    with their z-position, in file order. *)
Lemma load_run (files : list DcmFile) (slices : list Loaded) (l : log) :
  exists l',
    load files slices l
    = (Ok (slices ++ map (fun x => (z_key x, fst x, snd x)) (decoded files)), l').
Proof.
  revert slices l. induction files as [|file files IH]; intros slices l.
  - exists l. cbn. now rewrite app_nil_r.
  - cbn [load]. unfold bind at 1, try_except, bind, lift, decoded. cbn [flat_map].
    unfold decode at 1.
    destruct (dcmread file) as [ds|e].
    + rewrite get_z_position_run.
      destruct (pixel_array ds) as [px|e].
      * cbn. destruct (IH (slices ++ [(z_of ds, px, ds)]) (l ++ z_log ds)) as [l' Hl'].
        exists l'. rewrite Hl'. now rewrite <- app_assoc.
      * cbn. destruct (IH slices ((l ++ z_log ds) ++ [(WARNING, "Skipped file"%string)]))
          as [l' Hl'].
        exists l'. exact Hl'.
    + cbn. destruct (IH slices (l ++ [(WARNING, "Skipped file"%string)])) as [l' Hl'].
      exists l'. exact Hl'.
Qed.

(** The loader returns the decodable slices sorted by the model of
    [list.sort] on their z-positions. *)
Lemma to_2d_array_run (files : list DcmFile) (l : log) :
  exists l',
    to_2d_array files l = (Ok (list_sort z_key (decoded files)), l').
Proof.
  unfold to_2d_array, bind, emit, ret.
  destruct (load_run files [] (l ++ [(INFO, "Found DICOM files"%string)])) as [l' Hl'].
  rewrite Hl'. cbn [app]. eexists. f_equal. f_equal.
  rewrite (list_sort_map key (fun x => (z_key x, fst x, snd x))).
  rewrite map_map. cbn.
  etransitivity; [|apply map_id].
  apply map_ext. now intros [px ds].
Qed.

Lemma decoded_nil (files : list DcmFile) :
  forallb (fun file => negb (decodable file)) files = true -> decoded files = [].
Proof.
  induction files as [|file files IH]; [reflexivity|].
  cbn. unfold decodable. destruct (decode file); cbn; [discriminate|]. exact IH.
Qed.

(** C7. [_get_z_position] resolves the z-position in strict priority
    order: the third component of ImagePositionPatient when the attribute
    has one; otherwise SliceLocation when present and not None; otherwise
    InstanceNumber when it has a value; otherwise 0.0 with exactly one
    fallback warning added to the log. It never raises and logs nothing in
    the first three cases. *)
Theorem z_position_priority :
  forall (ds : Dataset) (l : log),
    _get_z_position ds l =
    match third_component (ImagePositionPatient ds) with
    | Some z => (Ok z, l)
    | None =>
        match SliceLocation ds with
        | Value s => (Ok s, l)
        | _ =>
            match InstanceNumber ds with
            | Value n => (Ok (of_Z 53 1024 n), l)
            | _ => (Ok (S754_zero false),
                    l ++ [(WARNING, "Could not determine z-position, using 0 as fallback"%string)])
            end
        end
    end.
Proof.
  intros ds l.
  unfold _get_z_position, try_except, bind, lift, ret, emit, third_component.
  destruct ds as [md pw seq ipp sl inum px]; cbn.
  destruct ipp as [| |[|a [|b [|c t]]]]; cbn; try reflexivity;
    destruct sl; cbn; try reflexivity;
    destruct inum; cbn; reflexivity.
Qed.




End LoaderFacts.

(* ===================================================================== *)
(** * Stacking and the per-study pipeline *)
(* ===================================================================== *)

Module PipelineFacts.
Import DicomConverter IntensityProcessor Pipeline Loader LoaderFacts Examples.

(** C9. [to_3d_array] raises ValueError on the empty list of slices, and
    a study with at least one file, none of which decodes, is aborted by
    that ValueError: the loader returns the empty sequence, the conversion
    keeps it empty, the stacking raises, and the pipeline logs an error and
    re-raises without saving a volume. *)
Theorem empty_study_aborts_at_stacking :
  forall (_convert_to_hu : Array2 Z -> Dataset -> M (Array2 float))
         (resize : Array2 float -> nat -> Array2 float)
         (slice_mean : Array2 float -> float)
         (target_size : nat) (l : log),
    to_3d_array resize [] target_size l = (Raise ValueError, l)
    /\ forall (mkdir : string -> result unit)
              (np_save : string -> list (Array2 float) -> result unit)
              (output_path patient_id : string)
              (files : list DcmFile) (disease_code : string)
              (threshold : float) (max_mode : bool),
        files <> [] ->
        forallb (fun file => negb (decodable file)) files = true ->
        exists l1 : log,
          to_2d_array files
            (l ++ [(INFO, "=====< PRE-PROCESSING PET PATIENT >====="%string)])
          = (Ok [], l1)
          /\ preprocess_pet_patient_data _convert_to_hu resize slice_mean
               mkdir np_save output_path patient_id
               files disease_code threshold max_mode l
             = (Raise ValueError,
                l1 ++ [(ERROR, "Error processing PET patient"%string)]).
Proof.
  intros hu resize slice_mean target_size l. split; [reflexivity|].
  intros mkdir np_save output_path patient_id
         files disease_code threshold max_mode Hne Hall.
  pose proof (decoded_nil files Hall) as Hdec.
  destruct (to_2d_array_run files
              (l ++ [(INFO, "=====< PRE-PROCESSING PET PATIENT >====="%string)]))
    as [l1 Hrun].
  rewrite Hdec in Hrun. change (list_sort z_key []) with (@nil (Array2 Z * Dataset)) in Hrun.
  exists l1. split; [exact Hrun|].
  unfold preprocess_pet_patient_data.
  destruct files as [|file files]; [contradiction|].
  cbv [bind emit try_except]. rewrite Hrun. reflexivity.
Qed.

Lemma empty_study_aborts_at_stacking_witness :
  exists l1 : log,
    to_2d_array broken_study
      ([] ++ [(INFO, "=====< PRE-PROCESSING PET PATIENT >====="%string)])
    = (Ok [], l1)
    /\ preprocess_pet_patient_data
         (fun image _ => ret (astype_float32 image)) (fun a _ => a)
         (VolumeProcessor.sum_mean 24 128)
         (fun _ => Ok tt) (fun _ _ => Ok tt) "out" "P1"
         broken_study "A" half true []
       = (Raise ValueError, l1 ++ [(ERROR, "Error processing PET patient"%string)]).
Proof.
  apply (proj2 (empty_study_aborts_at_stacking
                  (fun image _ => ret (astype_float32 image)) (fun a _ => a)
                  (VolumeProcessor.sum_mean 24 128) 128%nat [])).
  - discriminate.
  - reflexivity.
Defined.

End PipelineFacts.

(* ===================================================================== *)
(** * SUV conversion *)
(* ===================================================================== *)

Module SuvFacts.
Import IntensityProcessor Examples.

(** C5. Pixel value 100, PatientWeight 70 and RadionuclideTotalDose
    3.7e8: the dose is 3.7e8 / 1e6 = 370 exactly, and the SUV returned for
    the pixel is the float32 number nearest to 7000 / 370, which is
    18.92 to two decimals; nothing is logged. *)
Theorem suv_of_reference_slice :
  dose_of (f64 370000000) = f64 370
  /\ _convert_to_suv pet_pixel pet_metadata []
     = (Ok [[S754_finite false 9918962 (-19)]], [])
  /\ (18915 * 2 ^ 19 < 1000 * 9918962 < 18925 * 2 ^ 19)
  /\ (2 * Z.abs (370 * 9918962 - 7000 * 2 ^ 19) <= 370).
Proof.
  split; [vm_compute; reflexivity|].
  split; [vm_compute; reflexivity|].
  split; [vm_compute; split; reflexivity|].
  vm_compute. discriminate.
Qed.

(** When PatientWeight is missing or None, or the dose sequence is
    missing, None or empty, or the dose field of its first item is missing
    or None, or the dose computed from it equals zero, the conversion is
    skipped with one of the four warnings. *)
Lemma convert_to_suv_skip_run (image : Array2 Z) (metadata : Dataset) (l : log) :
  (PatientWeight metadata = Missing \/ PatientWeight metadata = PyNone)
  \/ (RadiopharmaceuticalInformationSequence metadata = Missing
      \/ RadiopharmaceuticalInformationSequence metadata = PyNone
      \/ RadiopharmaceuticalInformationSequence metadata = Value [])
  \/ (exists item rest,
         RadiopharmaceuticalInformationSequence metadata = Value (item :: rest)
         /\ (RadionuclideTotalDose item = Missing \/ RadionuclideTotalDose item = PyNone))
  \/ (exists item rest raw,
         RadiopharmaceuticalInformationSequence metadata = Value (item :: rest)
         /\ RadionuclideTotalDose item = Value raw
         /\ SFeqb (dose_of raw) zero = true) ->
  exists msg : string,
    In msg Conversion.skip_warnings
    /\ _convert_to_suv image metadata l
       = (Ok (astype_float32 image), l ++ [(WARNING, msg)]).
Proof.
  intros H.
  unfold _convert_to_suv, try_except, bind, lift, ret, emit.
  destruct metadata as [md pw seq ipp sl inum px]; cbn in *.
  destruct pw as [| |w]; cbn;
    try (eexists; split; [|reflexivity]; cbn; tauto).
  destruct H as [[H|H]|H]; try discriminate.
  destruct seq as [| |[|item rest]]; cbn;
    try (eexists; split; [|reflexivity]; cbn; tauto).
  destruct H as [[H|[H|H]]|[[i [r [H Hd]]]|[i [r [raw [H [Hd Hz]]]]]]];
    try discriminate; injection H as <- <-.
  - destruct Hd as [Hd|Hd]; rewrite Hd; cbn;
      (eexists; split; [|reflexivity]; cbn; tauto).
  - rewrite Hd; cbn. rewrite Hz.
    eexists; split; [|reflexivity]; cbn; tauto.
Qed.

End SuvFacts.

(* ===================================================================== *)
(** * Rounding: signs of sums, differences and quotients *)
(* ===================================================================== *)

Module RoundFacts.

Section Round.
Variables prec emax : Z.
Hypothesis Hprec : 0 < prec.

Local Abbreviation positive_result := (Fp.positive_result prec emax).

Lemma digits2_pos_bounds (m : positive) :
  2 ^ (Z.pos (digits2_pos m) - 1) <= Z.pos m < 2 ^ Z.pos (digits2_pos m).
Proof.
  induction m as [m IH|m IH|]; cbn [digits2_pos].
  - rewrite Pos2Z.inj_succ. replace (Z.succ (Z.pos (digits2_pos m)) - 1) with (Z.succ (Z.pos (digits2_pos m) - 1)) by lia.
    rewrite !Z.pow_succ_r by lia. lia.
  - rewrite Pos2Z.inj_succ. replace (Z.succ (Z.pos (digits2_pos m)) - 1) with (Z.succ (Z.pos (digits2_pos m) - 1)) by lia.
    rewrite !Z.pow_succ_r by lia. lia.
  - cbn. lia.
Qed.









Lemma iter_xO (m d : positive) :
  Z.pos (Pos.iter xO m d) = Z.pos m * 2 ^ Z.pos d.
Proof.
  induction d as [|d IH] using Pos.peano_ind.
  - cbn. lia.
  - rewrite Pos.iter_succ, Pos2Z.inj_succ, Z.pow_succ_r by lia.
    rewrite Pos2Z.inj_xO, IH. lia.
Qed.





Lemma SFadd_zero_l (s : bool) (m : positive) (e : Z) :
  SFadd prec emax (S754_zero s) (S754_finite false m e) = S754_finite false m e.
Proof. reflexivity. Qed.

Lemma SFdiv_zero_positive (n d : spec_float) :
  (match n with S754_zero _ => true | _ => false end) = true ->
  positive_result false d ->
  SFdiv prec emax n d = S754_zero (match n with S754_zero s => s | _ => false end).
Proof.
  intros Hn Hd. destruct n as [s| | |]; try discriminate.
  destruct d as [| s' | |s' md ed]; cbn in Hd; try contradiction.
  - subst s'. cbn. now destruct s.
  - destruct Hd as [-> _]. cbn. now destruct s.
Qed.

(** [x - mn] is a zero when [x == mn]. *)
Lemma SFsub_eq_zero (x mn : spec_float) :
  SFeqb x mn = true ->
  match x with S754_zero _ | S754_finite _ _ _ => True | _ => False end ->
  exists s, SFsub prec emax x mn = S754_zero s.
Proof.
  unfold SFeqb. intros Heq Hfin.
  destruct x as [s1| | |s1 m1 e1]; try contradiction;
    destruct mn as [s2| s2 | |s2 m2 e2]; cbn [SFcompare] in Heq; try discriminate;
    try (destruct s1; discriminate); try (destruct s2; discriminate).
  - destruct s1, s2; cbn; eauto.
  - assert (s1 = s2 /\ e1 = e2 /\ m1 = m2) as [-> [-> ->]].
    { change (Pos.compare_cont Eq m1 m2) with (Pos.compare m1 m2) in Heq.
      destruct s1, s2; try discriminate;
        destruct (Z.compare_spec e1 e2); try discriminate;
        destruct (Pos.compare_spec m1 m2); try discriminate; auto. }
    cbn [SFsub]. rewrite Z.sub_diag. cbn. eauto.
Qed.
End Round.

End RoundFacts.

(* ===================================================================== *)
(** * Global normalisation *)
(* ===================================================================== *)

Module NormalizeFacts.
Import IntensityProcessor FpFacts RoundFacts Examples.


(** [np.min] and [np.max] return an element of the array. *)
Lemma fold_minimum_In (t : list float) (x : float) :
  In (fold_left minimum t x) (x :: t).
Proof.
  revert x. induction t as [|y t IH]; intros x; cbn [fold_left]; [now left|].
  destruct (IH (minimum x y)) as [H|H]; [|right; now right].
  rewrite <- H. unfold minimum.
  destruct (is_nan x); [now left|]. destruct (is_nan y); [right; now left|].
  destruct (SFltb y x); [right|]; now left.
Qed.

Lemma fold_maximum_In (t : list float) (x : float) :
  In (fold_left maximum t x) (x :: t).
Proof.
  revert x. induction t as [|y t IH]; intros x; cbn [fold_left]; [now left|].
  destruct (IH (maximum x y)) as [H|H]; [|right; now right].
  rewrite <- H. unfold maximum.
  destruct (is_nan x); [now left|]. destruct (is_nan y); [right; now left|].
  destruct (SFltb x y); [right|]; now left.
Qed.

Lemma amin_In (a : list float) (mn : float) : amin a = Ok mn -> In mn a.
Proof.
  destruct a as [|x t]; cbn; [discriminate|].
  intros H. injection H as <-. apply fold_minimum_In.
Qed.

Lemma amax_In (a : list float) (mx : float) : amax a = Ok mx -> In mx a.
Proof.
  destruct a as [|x t]; cbn; [discriminate|].
  intros H. injection H as <-. apply fold_maximum_In.
Qed.

(** The element-wise application acts on the elements in place. *)
Lemma elements_elementwise_list {A : Type} `{NdArray A} (f : float -> float) :
  (forall a : A, elements (elementwise f a) = map f (elements a)) ->
  forall l : list A, elements (elementwise f l) = map f (elements l).
Proof.
  intros law l. cbn. rewrite map_map, concat_map, map_map.
  f_equal. apply map_ext. exact law.
Qed.

Lemma elements_elementwise_volume (f : float -> float) (volume : list (Array2 float)) :
  elements (elementwise f volume) = map f (elements volume).
Proof.
  repeat apply elements_elementwise_list. reflexivity.
Qed.

(** The literal 1e-8 is a positive number of float64 and of float32. *)
Lemma lit_1e_8_positive (prec emax : Z) :
  (prec = 53 /\ emax = 1024) \/ (prec = 24 /\ emax = 128) ->
  0 < prec
  /\ exists m e, lit_1e_8 prec emax = S754_finite false m e /\ emin prec emax <= e.
Proof.
  intros [[-> ->]|[-> ->]]; (split; [lia|]); do 2 eexists;
    (split; [vm_compute; reflexivity|vm_compute; discriminate]).
Qed.





End NormalizeFacts.

(* ===================================================================== *)
(** * The model at work on small inputs *)
(* ===================================================================== *)

Module Sanity.
Import VolumeProcessor IntensityProcessor DicomConverter Loader Examples.

(** The loader skips the unreadable file and orders the two others by
    z-position: the slice at 1.0 comes before the slice at 2.0. *)
Example to_2d_array_study :
  to_2d_array study []
  = (Ok [([[1]], slice_at 1); ([[2]], slice_at 2)],
     [(INFO, "Found DICOM files"%string);
      (WARNING, "Skipped file"%string);
      (INFO, "Successfully loaded and sorted slices by z-position."%string)]).
Proof. vm_compute. reflexivity. Qed.

(** A dataset without any position attribute falls back to 0.0 with one
    warning. *)
Example z_position_fallback :
  _get_z_position pet_metadata []
  = (Ok (S754_zero false),
     [(WARNING, "Could not determine z-position, using 0 as fallback"%string)]).
Proof. vm_compute. reflexivity. Qed.

(** With a minimum of 2 the range found around the bright last slice is
    widened to the two last slices. *)
Example trim_bright_tail_min_2 :
  trim_volume_by_threshold 53 1024 (sum_mean 53 1024) bright_tail half 2 true []
  = (Ok (slice bright_tail 8 10),
     [(INFO, "Expanded range to meet minimum slice requirement"%string)]).
Proof. vm_compute. reflexivity. Qed.

(** The empty volume has no maximum: the trimmer raises. *)
Example trim_empty_volume :
  trim_volume_by_threshold 53 1024 (sum_mean 53 1024) [] half 8 true []
  = (Raise ValueError, []).
Proof. reflexivity. Qed.

(** A constant volume is normalised to zeros. *)
Example normalize_constant :
  _normalize 53 1024 [[[f64 3; f64 3]]] []
  = (Ok [[[S754_zero false; S754_zero false]]], []).
Proof. vm_compute. reflexivity. Qed.

(** The empty array is returned as it is, with an error logged. *)
Example normalize_empty :
  _normalize 53 1024 ([] : list (Array2 float)) []
  = (Ok [], [(ERROR, "Normalization failed"%string)]).
Proof. reflexivity. Qed.

End Sanity.

(* ===================================================================== *)
(** * More on the depth trimmer *)
(* ===================================================================== *)

Module TrimMore.
Import VolumeProcessor PyFacts TrimFacts Examples.

Section Scan.
Variable test : Z -> bool.

(** Nothing before the index the forward loop stops at passes the test. *)
Lemma scan_up_first (n a : nat) (d : Z) :
  let r := scan test (map Z.of_nat (seq a n)) d in
  (r = d /\ forall j, Z.of_nat a <= j < Z.of_nat (a + n) -> test j = false)
  \/ (Z.of_nat a <= r < Z.of_nat (a + n) /\ test r = true
      /\ forall j, Z.of_nat a <= j < r -> test j = false).
Proof.
  revert a. induction n as [|n IH]; intros a; cbn -[Z.of_nat].
  - left. split; [reflexivity|]. intros j Hj. lia.
  - destruct (test (Z.of_nat a)) eqn:Ha.
    + right. split; [lia|]. split; [assumption|]. intros j Hj. lia.
    + destruct (IH (S a)) as [[Hr Hall]|[Hr [Ht Hall]]].
      * left. split; [exact Hr|]. intros j Hj.
        destruct (Z.eq_dec j (Z.of_nat a)) as [->|Hne]; [assumption|].
        apply Hall. lia.
      * right. split; [lia|]. split; [assumption|]. intros j Hj.
        destruct (Z.eq_dec j (Z.of_nat a)) as [->|Hne]; [assumption|].
        apply Hall. lia.
Qed.

(** With a slice that passes the test, both loops stop at slices that pass
    it, and everything outside the two stops fails it. *)
Lemma scans_hit (n : nat) (i : Z) :
  0 <= i < Z.of_nat n -> test i = true ->
  let s := scan test (range n) 0 in
  let e := scan test (range_down n) (Z.of_nat n - 1) in
  0 <= s <= i /\ i <= e < Z.of_nat n
  /\ test s = true /\ test e = true
  /\ (forall j, 0 <= j < s -> test j = false)
  /\ (forall j, e < j < Z.of_nat n -> test j = false).
Proof.
  intros Hi Ht. unfold range_down, range.
  destruct (scan_up_first n 0 0) as [[_ Hnone]|[Hs [Hst Hbefore]]];
    [rewrite Hnone in Ht by (cbn; lia); discriminate|].
  destruct (scan_down test n 0 (Z.of_nat n - 1)) as [[_ Hnone]|[He [Het Hafter]]];
    [rewrite Hnone in Ht by (cbn; lia); discriminate|].
  cbn zeta in *. rewrite ?Nat.add_0_l in *. cbn [Z.of_nat] in Hs, He, Hbefore.
  repeat split; try assumption; try lia.
  - destruct (Z.le_gt_cases (scan test (map Z.of_nat (seq 0 n)) 0) i); [assumption|].
    rewrite Hbefore in Ht by lia. discriminate.
  - destruct (Z.le_gt_cases i (scan test (rev (map Z.of_nat (seq 0 n))) (Z.of_nat n - 1)));
      [assumption|].
    rewrite Hafter in Ht by lia. discriminate.
Qed.

(** Without any slice that passes the test both loops keep their defaults. *)
Lemma scans_miss (n : nat) :
  (forall j, 0 <= j < Z.of_nat n -> test j = false) ->
  scan test (range n) 0 = 0
  /\ scan test (range_down n) (Z.of_nat n - 1) = Z.of_nat n - 1.
Proof.
  intros Hnone. unfold range_down, range.
  destruct (scan_up_first n 0 0) as [[Hs _]|[Hs [Hst _]]];
    destruct (scan_down test n 0 (Z.of_nat n - 1)) as [[He _]|[He [Het _]]];
    cbn zeta in *; rewrite ?Nat.add_0_l in *; cbn [Z.of_nat] in *.
  - split; assumption.
  - rewrite Hnone in Het by lia. discriminate.
  - rewrite Hnone in Hst by lia. discriminate.
  - rewrite Hnone in Hst by lia. discriminate.
Qed.
End Scan.

(** The minimum-length step leaves the full range as it is. *)
Lemma ensure_min_full (depth m : Z) :
  1 <= depth ->
  exists b, ensure_min depth m (0, depth - 1) = (0, depth - 1, b).
Proof.
  intros Hd. unfold ensure_min.
  destruct (Z.ltb_spec (depth - 1 - 0 + 1) m); [|eexists; reflexivity].
  exists true.
  assert ((0 + (depth - 1)) / 2 <= m / 2) by (apply Z.div_le_mono; lia).
  rewrite Z.max_l by lia. rewrite Z.min_l by lia. reflexivity.
Qed.

Lemma slice_all {A} (a : list A) :
  slice a 0 (Z.of_nat (List.length a) - 1 + 1) = a.
Proof.
  rewrite slice_in_range by lia.
  replace (Z.to_nat (Z.of_nat (List.length a) - 1 + 1 - 0)) with (List.length a) by lia.
  cbn [Z.to_nat skipn]. apply firstn_all.
Qed.

Section Trim.
Variables prec emax : Z.
Context {Slice : Type}.
Variable slice_mean : Slice -> float.

(** When the two loops select the full range, the whole volume is returned
    whatever the minimum. *)
Lemma trim_full_range (volume : list Slice) (thr : float) (m : Z) (mode : bool)
      (ni : list float) (l : log) :
  volume <> [] ->
  normalize_intensities prec emax (slice_intensities slice_mean volume) = Ok ni ->
  find_range (List.length volume) ni thr mode = (0, Z.of_nat (List.length volume) - 1) ->
  exists l', trim_volume_by_threshold prec emax slice_mean volume thr m mode l
             = (Ok volume, l').
Proof.
  intros Hne Hni Hfr.
  assert (Hd : 1 <= Z.of_nat (List.length volume))
    by (destruct volume; [contradiction|cbn [List.length]; lia]).
  destruct (ensure_min_full (Z.of_nat (List.length volume)) m Hd) as [b Hb].
  unfold trim_volume_by_threshold, final_range, bind, lift. rewrite Hni. cbn zeta.
  rewrite Hfr, Hb.
  destruct b; cbn; rewrite slice_all; eexists; reflexivity.
Qed.
End Trim.

Lemma item_in_range (a : list float) (j : Z) :
  0 <= j < Z.of_nat (List.length a) -> In (item a j) a.
Proof. intros Hj. unfold item. apply nth_In. lia. Qed.

Lemma item_const {A} (c : float) (si : list A) (j : Z) :
  0 <= j < Z.of_nat (List.length si) -> item (map (fun _ => c) si) j = c.
Proof.
  intros Hj. unfold item.
  assert (Hk : (Z.to_nat j < List.length si)%nat) by lia.
  revert Hk. generalize (Z.to_nat j) as k. clear Hj.
  induction si as [|x si IH]; intros k Hk; [cbn in Hk; lia|].
  destruct k as [|k]; [reflexivity|]. cbn. apply IH. cbn in Hk. lia.
Qed.

(** The minimum-length step on an ordered range, for any minimum. *)
Lemma ensure_min_cases (depth m s e : Z) :
  0 <= s <= e -> e <= depth - 1 ->
  let '(s', e', b) := ensure_min depth m (s, e) in
  0 <= s' <= e' /\ e' <= depth - 1
  /\ (if b then e' - s' + 1 <= m else s' = s /\ e' = e /\ m <= e - s + 1).
Proof.
  intros Hs He. unfold ensure_min.
  destruct (Z.ltb_spec (e - s + 1) m); [|lia].
  assert (s <= (s + e) / 2 <= e)
    by (split; [apply Z.div_le_lower_bound|apply Z.div_le_upper_bound]; lia).
  assert (0 <= m / 2) by (apply Z.div_pos; lia).
  lia.
Qed.

(** X1. A volume whose slice means show no contrast (the maximum is not
    greater than the minimum: equal means, or a NaN among them) is returned
    whole, for every threshold, direction and minimum. *)
Theorem trim_keeps_all_without_contrast :
  forall (prec emax : Z) (Slice : Type) (slice_mean : Slice -> float)
         (volume : list Slice) (threshold : float) (m : Z) (max_mode : bool)
         (mn mx : float) (l : log),
    amax (slice_intensities slice_mean volume) = Ok mx ->
    amin (slice_intensities slice_mean volume) = Ok mn ->
    SFgtb mx mn = false ->
    exists l' : log,
      trim_volume_by_threshold prec emax slice_mean volume threshold m max_mode l
      = (Ok volume, l').
Proof.
  intros prec emax Slice slice_mean volume thr m mode mn mx l Hmx Hmn Hgt.
  assert (Hne : volume <> []) by (intros ->; discriminate).
  set (si := slice_intensities slice_mean volume) in *.
  assert (Hlen : List.length si = List.length volume) by apply length_map.
  apply (trim_full_range prec emax slice_mean volume thr m mode
                         (map (fun _ => one prec emax) si) l Hne).
  { unfold normalize_intensities. fold si. now rewrite Hmx, Hmn, Hgt. }
  unfold find_range.
  assert (Hd : (1 <= List.length volume)%nat)
    by (destruct volume; [contradiction|cbn; lia]).
  destruct (meets mode thr (one prec emax)) eqn:Hb.
  - pose proof (scans_hit
                  (fun i => meets mode thr (item (map (fun _ => one prec emax) si) i))
                  (List.length volume) 0 ltac:(lia)) as H0.
    pose proof (scans_hit
                  (fun i => meets mode thr (item (map (fun _ => one prec emax) si) i))
                  (List.length volume) (Z.of_nat (List.length volume) - 1) ltac:(lia)) as H1.
    cbn beta zeta in H0, H1.
    rewrite item_const in H0, H1 by lia.
    specialize (H0 Hb). specialize (H1 Hb).
    f_equal; lia.
  - destruct (scans_miss
                (fun i => meets mode thr (item (map (fun _ => one prec emax) si) i))
                (List.length volume)) as [Hs He].
    { intros j Hj. rewrite item_const by lia. exact Hb. }
    now rewrite Hs, He.
Qed.

Lemma trim_keeps_all_without_contrast_witness :
  exists l' : log,
    trim_volume_by_threshold 53 1024 (sum_mean 53 1024)
      (column (map f64 [3; 3; 3])) half 8 true []
    = (Ok (column (map f64 [3; 3; 3])), l').
Proof.
  apply (trim_keeps_all_without_contrast 53 1024 Slice2D (sum_mean 53 1024)
           (column (map f64 [3; 3; 3])) half 8 true (f64 3) (f64 3) []);
    vm_compute; reflexivity.
Defined.

(** X2. When no slice passes the threshold test, nothing is trimmed: the
    two loops keep their defaults and the whole volume is returned. *)
Theorem trim_keeps_all_without_hit :
  forall (prec emax : Z) (Slice : Type) (slice_mean : Slice -> float)
         (volume : list Slice) (threshold : float) (m : Z) (max_mode : bool)
         (ni : list float) (l : log),
    normalize_intensities prec emax (slice_intensities slice_mean volume) = Ok ni ->
    Forall (fun x => meets max_mode threshold x = false) ni ->
    exists l' : log,
      trim_volume_by_threshold prec emax slice_mean volume threshold m max_mode l
      = (Ok volume, l').
Proof.
  intros prec emax Slice slice_mean volume thr m mode ni l Hni Hall.
  assert (Hne : volume <> []) by (intros ->; discriminate).
  destruct (normalize_intensities_ok prec emax (slice_intensities slice_mean volume))
    as [ni' [Hni' Hlen]].
  { destruct volume; [contradiction|discriminate]. }
  rewrite Hni in Hni'. injection Hni' as <-.
  unfold slice_intensities in Hlen. rewrite length_map in Hlen.
  apply (trim_full_range prec emax slice_mean volume thr m mode ni l Hne Hni).
  unfold find_range.
  destruct (scans_miss (fun i => meets mode thr (item ni i)) (List.length volume))
    as [Hs He].
  { intros j Hj. rewrite Forall_forall in Hall. apply Hall.
    apply item_in_range. lia. }
  now rewrite Hs, He.
Qed.

Lemma trim_keeps_all_without_hit_witness :
  exists l' : log,
    trim_volume_by_threshold 53 1024 (sum_mean 53 1024) bright_tail (f64 2) 2 true []
    = (Ok bright_tail, l').
Proof.
  eapply (trim_keeps_all_without_hit 53 1024 Slice2D (sum_mean 53 1024)
            bright_tail (f64 2) 2 true _ []).
  - vm_compute. reflexivity.
  - repeat (apply Forall_cons; [reflexivity|]). apply Forall_nil.
Defined.

(** X3. When some slice passes the threshold test and the range found is
    not shorter than the minimum, the volume is cut at the first and at the
    last slice that pass the test: both ends of the result pass it and every
    slice cut away fails it. Nothing is logged. *)
Theorem trim_cuts_only_failing_ends :
  forall (prec emax : Z) (Slice : Type) (slice_mean : Slice -> float)
         (volume : list Slice) (threshold : float) (m : Z) (max_mode : bool)
         (ni : list float) (i : Z) (l : log),
    normalize_intensities prec emax (slice_intensities slice_mean volume) = Ok ni ->
    0 <= i < Z.of_nat (List.length volume) ->
    meets max_mode threshold (item ni i) = true ->
    exists start_idx end_idx : Z,
      0 <= start_idx <= i /\ i <= end_idx < Z.of_nat (List.length volume)
      /\ meets max_mode threshold (item ni start_idx) = true
      /\ meets max_mode threshold (item ni end_idx) = true
      /\ (forall j, 0 <= j < start_idx -> meets max_mode threshold (item ni j) = false)
      /\ (forall j, end_idx < j < Z.of_nat (List.length volume) ->
                    meets max_mode threshold (item ni j) = false)
      /\ (m <= end_idx - start_idx + 1 ->
          trim_volume_by_threshold prec emax slice_mean volume threshold m max_mode l
          = (Ok (slice volume start_idx (end_idx + 1)), l)).
Proof.
  intros prec emax Slice slice_mean volume thr m mode ni i l Hni Hi Hmeet.
  pose proof (scans_hit (fun j => meets mode thr (item ni j)) (List.length volume) i Hi Hmeet)
    as [Hs [He [Hts [Hte [Hbefore Hafter]]]]].
  cbn beta zeta in *.
  set (s := scan (fun j => meets mode thr (item ni j)) (range (List.length volume)) 0) in *.
  set (e := scan (fun j => meets mode thr (item ni j)) (range_down (List.length volume))
                 (Z.of_nat (List.length volume) - 1)) in *.
  exists s, e. repeat split; try assumption; try lia.
  intros Hm.
  unfold trim_volume_by_threshold, final_range, bind, lift. rewrite Hni. cbn zeta.
  unfold find_range. fold s e. unfold ensure_min.
  destruct (Z.ltb_spec (e - s + 1) m); [lia|]. reflexivity.
Qed.

Lemma trim_cuts_only_failing_ends_witness :
  exists start_idx end_idx : Z,
    0 <= start_idx <= 7 /\ 7 <= end_idx < 10
    /\ trim_volume_by_threshold 53 1024 (sum_mean 53 1024) (column ramp10) half 1 true []
       = (Ok (slice (column ramp10) start_idx (end_idx + 1)), []).
Proof.
  assert (Hni : exists ni,
             normalize_intensities 53 1024
               (slice_intensities (sum_mean 53 1024) (column ramp10)) = Ok ni
             /\ meets true half (item ni 7) = true).
  { eexists. split; [vm_compute; reflexivity|]. vm_compute. reflexivity. }
  destruct Hni as [ni [Hni Hmeet]].
  destruct (trim_cuts_only_failing_ends 53 1024 Slice2D (sum_mean 53 1024)
              (column ramp10) half 1 true ni 7 [] Hni ltac:(cbn; lia) Hmeet)
    as [s [e [Hs [He [Hts [Hte [_ [_ Htrim]]]]]]]].
  exists s, e. split; [exact Hs|]. split; [exact He|].
  apply Htrim. lia.
Defined.

(** X4. The trimmer raises (ValueError) exactly on the empty volume. On
    any other volume and for any minimum, either nothing is logged and the
    result has at least the minimum number of slices, or the expansion is
    logged and the result has at most the minimum number of slices. *)
Theorem trim_expansion_dichotomy :
  forall (prec emax : Z) (Slice : Type) (slice_mean : Slice -> float)
         (volume : list Slice) (threshold : float) (m : Z) (max_mode : bool) (l : log),
    (volume = [] ->
     trim_volume_by_threshold prec emax slice_mean volume threshold m max_mode l
     = (Raise ValueError, l))
    /\ (volume <> [] ->
        exists (out : list Slice) (l' : log),
          trim_volume_by_threshold prec emax slice_mean volume threshold m max_mode l
          = (Ok out, l')
          /\ out <> []
          /\ ((l' = l /\ m <= Z.of_nat (List.length out))
              \/ (l' = l ++ [(INFO, "Expanded range to meet minimum slice requirement"%string)]
                  /\ Z.of_nat (List.length out) <= m))).
Proof.
  intros prec emax Slice slice_mean volume thr m mode l. split.
  - intros ->. reflexivity.
  - intros Hne.
    assert (Hd : (1 <= List.length volume)%nat)
      by (destruct volume; [contradiction|cbn; lia]).
    destruct (normalize_intensities_ok prec emax (slice_intensities slice_mean volume))
      as [ni [Hni _]].
    { destruct volume; [contradiction|discriminate]. }
    pose proof (scans_ordered (fun j => meets mode thr (item ni j))
                              (List.length volume) Hd) as [Hs He].
    cbn zeta in Hs, He.
    pose proof (ensure_min_cases (Z.of_nat (List.length volume)) m _ _ Hs He) as Hc.
    unfold trim_volume_by_threshold, final_range, bind, lift. rewrite Hni. cbn zeta.
    unfold find_range.
    destruct (ensure_min _ _ _) as [[s e] b].
    destruct Hc as [Hs' [He' Hb]].
    assert (Hlen : List.length (slice volume s (e + 1)) = Z.to_nat (e + 1 - s))
      by (apply slice_length; lia).
    destruct b; cbn; do 2 eexists; (split; [reflexivity|]); split.
    + intros Hnil. rewrite Hnil in Hlen. cbn in Hlen. lia.
    + right. split; [reflexivity|]. rewrite Hlen. lia.
    + intros Hnil. rewrite Hnil in Hlen. cbn in Hlen. lia.
    + left. split; [reflexivity|]. rewrite Hlen. lia.
Qed.

Lemma trim_expansion_dichotomy_witness :
  exists (out : list Slice2D) (l' : log),
    trim_volume_by_threshold 53 1024 (sum_mean 53 1024) bright_tail half 8 true []
    = (Ok out, l')
    /\ out <> []
    /\ ((l' = [] /\ 8 <= Z.of_nat (List.length out))
        \/ (l' = [] ++ [(INFO, "Expanded range to meet minimum slice requirement"%string)]
            /\ Z.of_nat (List.length out) <= 8)).
Proof.
  apply (proj2 (trim_expansion_dichotomy 53 1024 Slice2D (sum_mean 53 1024)
                  bright_tail half 8 true [])).
  discriminate.
Defined.

End TrimMore.

(* ===================================================================== *)
(** * More on intensity conversion *)
(* ===================================================================== *)

Module IntensityMore.
Import IntensityProcessor Conversion FpFacts RoundFacts NormalizeFacts Examples.

(** ** The float32 cast of stored pixel values *)

Section Exact.
Variables prec emax : Z.
Hypothesis Hemax : prec <= emax.
Hypothesis Hemax2 : 2 <= emax.

Lemma digits2_pos_iter_xO (m k : positive) :
  Z.pos (digits2_pos (Pos.iter xO m k)) = Z.pos (digits2_pos m) + Z.pos k.
Proof.
  induction k as [|k IH] using Pos.peano_ind.
  - cbn. lia.
  - rewrite Pos.iter_succ. cbn [digits2_pos]. rewrite !Pos2Z.inj_succ, IH. lia.
Qed.

(** A mantissa of full width at a exponent in range is not rounded. *)
Lemma binary_round_aux_exact (s : bool) (m : positive) (e : Z) :
  Z.pos (digits2_pos m) = prec ->
  emin prec emax <= e <= emax - prec ->
  binary_round_aux prec emax s (Z.pos m) e loc_Exact = S754_finite s m e.
Proof.
  intros Hd He.
  assert (Hshr : shr_fexp prec emax (Z.pos m) e loc_Exact
                 = ({| shr_m := Z.pos m; shr_r := false; shr_s := false |}, e)).
  { unfold shr_fexp, shr, fexp. cbn [Zdigits2]. rewrite Hd.
    replace (Z.max (prec + e - prec) (emin prec emax) - e) with 0 by lia.
    reflexivity. }
  unfold binary_round_aux. rewrite Hshr. cbn [shr_m loc_of_shr_record round_nearest_even].
  rewrite Hshr. cbn [shr_m].
  destruct (Z.leb_spec e (emax - prec)); [reflexivity|lia].
Qed.

(** An integer of at most [prec] binary digits converts exactly. *)
Lemma binary_round_int_exact (s : bool) (m : positive) :
  Z.pos (digits2_pos m) <= prec ->
  exists m' e,
    binary_round prec emax s m 0 = S754_finite s m' e
    /\ e <= 0 /\ Z.pos m * 2 ^ (- e) = Z.pos m'.
Proof.
  intros Hd. unfold binary_round, shl_align, fexp, emin.
  pose proof (Pos2Z.is_pos (digits2_pos m)) as Hpos.
  replace (Z.max (Z.pos (digits2_pos m) + 0 - prec) (3 - emax - prec) - 0)
    with (Z.pos (digits2_pos m) - prec) by lia.
  destruct (Z.pos (digits2_pos m) - prec) as [|k|k] eqn:Hk; try lia.
  - exists m, 0. split; [|split; [lia|cbn; lia]].
    apply binary_round_aux_exact; [lia|unfold emin; lia].
  - exists (Pos.iter xO m k), (Z.max (Z.pos (digits2_pos m) + 0 - prec) (3 - emax - prec)).
    replace (Z.max (Z.pos (digits2_pos m) + 0 - prec) (3 - emax - prec))
      with (Z.neg k) by lia.
    split; [|split; [lia|]].
    + apply binary_round_aux_exact; [|unfold emin; lia].
      rewrite digits2_pos_iter_xO. lia.
    + rewrite iter_xO. reflexivity.
Qed.
End Exact.

Lemma digits2_pos_le (m : positive) (k : Z) :
  0 <= k -> Z.pos m < 2 ^ k -> Z.pos (digits2_pos m) <= k.
Proof.
  intros Hk Hm. pose proof (digits2_pos_bounds m) as [Hlo _].
  destruct (Z.le_gt_cases (Z.pos (digits2_pos m)) k) as [H|H]; [assumption|].
  assert (2 ^ k <= 2 ^ (Z.pos (digits2_pos m) - 1)) by (apply Z.pow_le_mono_r; lia).
  lia.
Qed.

Lemma of_Z_float32_exact (p : Z) :
  Z.abs p < 2 ^ 24 -> represents (of_Z 24 128 p) p.
Proof.
  intros Hp. unfold of_Z, binary_normalize.
  destruct p as [|m|m].
  - reflexivity.
  - destruct (binary_round_int_exact 24 128 ltac:(lia) ltac:(lia) false m)
      as [m' [e [-> [He Hv]]]].
    { apply digits2_pos_le; [lia|exact Hp]. }
    cbn. split; assumption.
  - destruct (binary_round_int_exact 24 128 ltac:(lia) ltac:(lia) true m)
      as [m' [e [-> [He Hv]]]].
    { apply digits2_pos_le; [lia|exact Hp]. }
    cbn [represents]. split; [assumption|].
    rewrite <- Pos2Z.opp_pos, Z.mul_opp_l, Hv. reflexivity.
Qed.

(** X5. The float32 cast of a pixel grid is exact on stored values below
    2^24 in magnitude (all 8- and 16-bit pixel data): every pixel of
    [image.astype(np.float32)] holds the very integer of the input, and the
    grid keeps its shape. *)
Theorem astype_float32_exact :
  forall image : Array2 Z,
    Forall (Forall (fun p => Z.abs p < 2 ^ 24)) image ->
    Forall2 (Forall2 represents) (astype_float32 image) image.
Proof.
  intros image H. unfold astype_float32.
  induction H as [|row image Hrow _ IH]; cbn; constructor; [|exact IH].
  induction Hrow as [|p row Hp _ IHrow]; cbn; constructor; [|exact IHrow].
  now apply of_Z_float32_exact.
Qed.

Lemma astype_float32_exact_witness :
  Forall2 (Forall2 represents) (astype_float32 [[100; -7]; [0; 65535]])
          [[100; -7]; [0; 65535]].
Proof.
  apply (astype_float32_exact [[100; -7]; [0; 65535]]).
  repeat constructor.
Defined.

(** ** SUV conversion on every input *)

(** The result does not depend on the log so far, and the log only grows. *)
Lemma convert_to_suv_run (image : Array2 Z) (metadata : Dataset) (l : log) :
  _convert_to_suv image metadata l
  = (Ok (suv_result image metadata), l ++ suv_log image metadata).
Proof.
  unfold suv_result, suv_log, _convert_to_suv, try_except, bind, lift, ret, emit.
  destruct metadata as [md pw seq ipp sl inum px]; cbn.
  destruct pw as [| |w]; cbn; rewrite ?app_nil_r; try reflexivity.
  destruct seq as [| |[|item rest]]; cbn; rewrite ?app_nil_r; try reflexivity.
  destruct (RadionuclideTotalDose item) as [| |raw]; cbn; rewrite ?app_nil_r;
    try reflexivity.
  destruct (SFeqb (dose_of raw) zero); cbn; rewrite ?app_nil_r; reflexivity.
Qed.

(** X6. [_convert_to_suv] never raises and never logs an error. Either it
    scales every pixel by one weight over one dose and logs nothing, or it
    returns the float32 cast of the whole grid and logs exactly one warning.
    In both cases the grid keeps its shape. *)
Theorem convert_to_suv_all_or_nothing :
  forall (image : Array2 Z) (metadata : Dataset) (l : log),
    exists (out : Array2 float) (records : log),
      _convert_to_suv image metadata l = (Ok out, l ++ records)
      /\ map (@List.length float) out = map (@List.length Z) image
      /\ ((records = []
           /\ exists weight dose, out = map (map (suv_pixel weight dose)) image)
          \/ (out = astype_float32 image
              /\ exists msg, records = [(WARNING, msg)])).
Proof.
  intros image metadata l.
  unfold _convert_to_suv, try_except, bind, lift, ret, emit.
  assert (Hshape : forall f : Z -> float,
             map (@List.length float) (map (map f) image) = map (@List.length Z) image).
  { intros f. rewrite map_map. apply map_ext. intros row. apply length_map. }
  destruct metadata as [md pw seq ipp sl inum px]; cbn.
  destruct pw as [| |w]; cbn;
    try (do 2 eexists; split; [reflexivity|]; split; [apply Hshape|];
         right; split; [reflexivity|]; eexists; reflexivity).
  destruct seq as [| |[|item rest]]; cbn;
    try (do 2 eexists; split; [reflexivity|]; split; [apply Hshape|];
         right; split; [reflexivity|]; eexists; reflexivity).
  destruct (RadionuclideTotalDose item) as [| |raw]; cbn;
    try (do 2 eexists; split; [reflexivity|]; split; [apply Hshape|];
         right; split; [reflexivity|]; eexists; reflexivity).
  destruct (SFeqb (dose_of raw) zero); cbn.
  - do 2 eexists; split; [reflexivity|]; split; [apply Hshape|].
    right; split; [reflexivity|]; eexists; reflexivity.
  - exists (map (map (suv_pixel w (dose_of raw))) image), [].
    rewrite app_nil_r. split; [reflexivity|]. split; [apply Hshape|].
    left. split; [reflexivity|]. do 2 eexists; reflexivity.
Qed.

(** X7. With a PatientWeight, a non-empty dose sequence whose first item
    has a RadionuclideTotalDose, and a dose that is not zero after the
    division by 1e6, every pixel [p] becomes [float32(p) * weight / dose]
    in float32 arithmetic and nothing is logged. Only the first item of the
    sequence is read. *)
Theorem convert_to_suv_applies :
  forall (image : Array2 Z) (metadata : Dataset) (weight raw : float)
         (item : RphInfo) (rest : list RphInfo) (l : log),
    PatientWeight metadata = Value weight ->
    RadiopharmaceuticalInformationSequence metadata = Value (item :: rest) ->
    RadionuclideTotalDose item = Value raw ->
    SFeqb (dose_of raw) zero = false ->
    _convert_to_suv image metadata l
    = (Ok (map (map (suv_pixel weight (dose_of raw))) image), l).
Proof.
  intros image metadata weight raw item rest l Hw Hseq Hd Hz.
  unfold _convert_to_suv, try_except, bind, lift, ret, emit.
  rewrite Hw, Hseq. cbn. rewrite Hd. cbn. rewrite Hz. reflexivity.
Qed.

Lemma convert_to_suv_applies_witness :
  _convert_to_suv pet_pixel pet_metadata []
  = (Ok (map (map (suv_pixel (f64 70) (dose_of (f64 370000000)))) pet_pixel), []).
Proof.
  apply (convert_to_suv_applies pet_pixel pet_metadata (f64 70) (f64 370000000)
           {| RadionuclideTotalDose := Value (f64 370000000) |} [] []);
    reflexivity.
Defined.

(** ** Normalisation on every input *)

Section NormalizeAny.
Variables prec emax : Z.
Context {A : Type} `{NdArray A}.

Lemma normalize_run (image : A) (l : log) :
  _normalize prec emax image l
  = (Ok (normalize_result prec emax image), l ++ normalize_log prec emax image).
Proof.
  unfold normalize_result, normalize_log, _normalize, try_except, bind, lift, ret, emit.
  destruct (elements image) as [|x t]; cbn; rewrite ?app_nil_r; reflexivity.
Qed.

Lemma normalize_nonempty_run (image : A) (l : log) :
  elements image <> [] ->
  exists mn mx,
    amin (elements image) = Ok mn /\ amax (elements image) = Ok mx
    /\ In mn (elements image) /\ In mx (elements image)
    /\ _normalize prec emax image l
       = (Ok (elementwise (rescale prec emax mn mx) image), l).
Proof.
  intros Hne.
  destruct (amin (elements image)) as [mn|e] eqn:Hmn;
    [|destruct (elements image); [contradiction|discriminate]].
  destruct (amax (elements image)) as [mx|e] eqn:Hmx;
    [|destruct (elements image); [contradiction|discriminate]].
  exists mn, mx. repeat split.
  - now apply amin_In.
  - now apply amax_In.
  - unfold _normalize, try_except, bind, lift, ret. rewrite Hmn, Hmx. reflexivity.
Qed.

(** X8. [_normalize] never raises. An array without elements has no
    minimum: it is returned as it is and one error is logged. Any other
    array is rescaled element by element with its own minimum and maximum,
    and nothing is logged. *)
Theorem normalize_never_raises :
  forall (image : A) (l : log),
    (elements image = [] ->
     _normalize prec emax image l = (Ok image, l ++ [(ERROR, "Normalization failed"%string)]))
    /\ (elements image <> [] ->
        exists mn mx,
          amin (elements image) = Ok mn /\ amax (elements image) = Ok mx
          /\ In mn (elements image) /\ In mx (elements image)
          /\ _normalize prec emax image l
             = (Ok (elementwise (rescale prec emax mn mx) image), l)).
Proof.
  intros image l. split.
  - intros Hnil. unfold _normalize, try_except, bind, lift, ret, emit.
    rewrite Hnil. reflexivity.
  - apply normalize_nonempty_run.
Qed.
End NormalizeAny.

Lemma normalize_never_raises_witness :
  exists mn mx,
    amin (elements unit_volume) = Ok mn /\ amax (elements unit_volume) = Ok mx
    /\ In mn (elements unit_volume) /\ In mx (elements unit_volume)
    /\ _normalize 53 1024 unit_volume []
       = (Ok (elementwise (rescale 53 1024 mn mx) unit_volume), []).
Proof.
  apply (proj2 (normalize_never_raises 53 1024 unit_volume [])).
  discriminate.
Defined.

Lemma SFeqb_via (x y c : float) :
  SFeqb x c = true -> SFeqb y c = true -> SFeqb x y = true.
Proof. unfold SFeqb. order_cases. Qed.

(** X9. A float64 or float32 volume whose values are all one finite number
    is normalised to zeros: the 1e-8 in the denominator keeps the division
    away from 0 / 0, so no NaN and no infinity appears. *)
Theorem normalize_constant_is_zero :
  forall (prec emax : Z) (volume : list (Array2 float)) (c : float) (l : log),
    (prec = 53 /\ emax = 1024) \/ (prec = 24 /\ emax = 128) ->
    elements volume <> [] ->
    Forall (fun x => is_finite x = true /\ SFeqb x c = true) (elements volume) ->
    exists out : list (Array2 float),
      _normalize prec emax volume l = (Ok out, l)
      /\ List.length (elements out) = List.length (elements volume)
      /\ Forall (fun y => is_zero y = true) (elements out).
Proof.
  intros prec emax volume c l Hfmt Hne Hall.
  destruct (normalize_nonempty_run prec emax volume l Hne)
    as [mn [mx [Hmn [Hmx [Hinn [Hinx Hrun]]]]]].
  exists (elementwise (rescale prec emax mn mx) volume).
  rewrite elements_elementwise_volume.
  split; [exact Hrun|]. split; [apply length_map|].
  rewrite Forall_forall in Hall.
  destruct (Hall _ Hinn) as [Hfn Hcn]. destruct (Hall _ Hinx) as [Hfx Hcx].
  destruct (lit_1e_8_positive prec emax Hfmt) as [Hprec [m [e [Heps He]]]].
  destruct (SFsub_eq_zero prec emax mx mn (SFeqb_via _ _ _ Hcx Hcn)) as [s' Hs'].
  { destruct mx; try discriminate; exact I. }
  apply Forall_forall. intros y Hy. apply in_map_iff in Hy as [x [<- Hx]].
  destruct (Hall _ Hx) as [Hf Hc].
  destruct (SFsub_eq_zero prec emax x mn (SFeqb_via _ _ _ Hc Hcn)) as [s Hs].
  { destruct x; try discriminate; exact I. }
  unfold rescale. rewrite Hs, Hs', Heps. rewrite SFadd_zero_l.
  rewrite (SFdiv_zero_positive prec emax (S754_zero s) _ eq_refl); [reflexivity|].
  cbn. split; [reflexivity|exact He].
Qed.

Lemma normalize_constant_is_zero_witness :
  exists out : list (Array2 float),
    _normalize 24 128 [[[of_Z 24 128 3; of_Z 24 128 3]]; [[of_Z 24 128 3; of_Z 24 128 3]]] []
    = (Ok out, [])
    /\ List.length (elements out)
       = List.length (elements [[[of_Z 24 128 3; of_Z 24 128 3]];
                                [[of_Z 24 128 3; of_Z 24 128 3]]])
    /\ Forall (fun y => is_zero y = true) (elements out).
Proof.
  apply (normalize_constant_is_zero 24 128
           [[[of_Z 24 128 3; of_Z 24 128 3]]; [[of_Z 24 128 3; of_Z 24 128 3]]]
           (of_Z 24 128 3) []).
  - right. split; reflexivity.
  - discriminate.
  - repeat (apply Forall_cons; [split; reflexivity|]). apply Forall_nil.
Defined.

(** ** The conversion loop *)

Section Convert.
Variable _convert_to_hu : Array2 Z -> Dataset -> M (Array2 float).

Lemma convert_loop_run (normalize : bool) (slices : list (Array2 Z * Dataset))
      (acc : list (Array2 float)) (l : log) :
  no_CT slices ->
  exists l',
    convert_loop _convert_to_hu normalize slices acc l
    = (Ok (acc ++ map (fun x => post normalize (suv_result (fst x) (snd x))) slices), l').
Proof.
  intros Hct. revert acc l.
  induction Hct as [|[image metadata] slices Hx _ IH]; intros acc l.
  - exists l. cbn. now rewrite app_nil_r.
  - cbn [convert_loop]. cbn [snd] in Hx. rewrite Hx.
    unfold bind at 1. rewrite convert_to_suv_run.
    unfold bind at 1. destruct normalize.
    + rewrite normalize_run.
      destruct (IH (acc ++ [normalize_result 24 128 (suv_result image metadata)])
                   ((l ++ suv_log image metadata)
                      ++ normalize_log 24 128 (suv_result image metadata))) as [l' Hl'].
      exists l'. rewrite Hl'. cbn [map fst snd post]. now rewrite <- app_assoc.
    + unfold ret at 1.
      destruct (IH (acc ++ [suv_result image metadata]) (l ++ suv_log image metadata))
        as [l' Hl'].
      exists l'. rewrite Hl'. cbn [map fst snd post]. now rewrite <- app_assoc.
Qed.

(** X10. On slices none of which is a CT slice, [convert] never raises and
    returns one array per slice, in the order of the slices: the SUV
    conversion of the slice, normalised when the flag is set. The CT
    conversion is not called. *)
Theorem convert_one_per_slice :
  forall (slices : list (Array2 Z * Dataset)) (normalize : bool) (l : log),
    no_CT slices ->
    exists (out : list (Array2 float)) (l' : log),
      convert _convert_to_hu slices normalize l = (Ok out, l')
      /\ List.length out = List.length slices
      /\ forall (i : nat) (image : Array2 Z) (metadata : Dataset),
           nth_error slices i = Some (image, metadata) ->
           nth_error out i
           = Some (if normalize
                   then normalize_result 24 128 (suv_result image metadata)
                   else suv_result image metadata).
Proof.
  intros slices normalize l Hct.
  destruct (convert_loop_run normalize slices [] l Hct) as [l' Hl'].
  exists (map (fun x => post normalize (suv_result (fst x) (snd x))) slices), l'.
  split; [exact Hl'|]. split; [apply length_map|].
  intros i image metadata Hi. rewrite nth_error_map, Hi. reflexivity.
Qed.
End Convert.

Lemma convert_one_per_slice_witness :
  exists (out : list (Array2 float)) (l' : log),
    convert (fun _ _ => raise OtherError)
            [(pet_pixel, pet_metadata); (pet_pixel, pet_metadata_no_weight)] false []
    = (Ok out, l')
    /\ List.length out = 2%nat.
Proof.
  destruct (convert_one_per_slice (fun _ _ => raise OtherError)
              [(pet_pixel, pet_metadata); (pet_pixel, pet_metadata_no_weight)] false [])
    as [out [l' [Hrun [Hlen _]]]].
  - repeat (apply Forall_cons; [reflexivity|]). apply Forall_nil.
  - exists out, l'. split; assumption.
Defined.

End IntensityMore.

(* ===================================================================== *)
(** * The skipped SUV conversion *)
(* ===================================================================== *)

Module SuvSkip.
Import IntensityProcessor Conversion SuvFacts IntensityMore Examples.

Lemma represents_integer_value (x : float) (z : Z) :
  represents x z -> integer_value x = Some z.
Proof.
  destruct x as [s| | |s m e]; cbn; try contradiction.
  - now intros ->.
  - intros [He Hv]. set (n := if s then Z.neg m else Z.pos m) in *.
    destruct (Z.leb_spec 0 e) as [H0|H0].
    + assert (e = 0) by lia. subst e. cbn in Hv. f_equal. cbn. lia.
    + assert (Hpos : 0 < 2 ^ (- e)) by (apply Z.pow_pos_nonneg; lia).
      rewrite <- Hv, Z.mod_mul by lia. cbn.
      now rewrite Z.div_mul by lia.
Qed.

(** The cast keeps the shape, and every value below 2^24 in magnitude. *)
Lemma astype_float32_values (image : Array2 Z) :
  map (@List.length float) (map (map (of_Z 24 128)) image)
  = map (@List.length Z) image
  /\ Forall2 (Forall2 (fun x p => Z.abs p < 2 ^ 24 -> integer_value x = Some p))
             (map (map (of_Z 24 128)) image) image.
Proof.
  split.
  - rewrite map_map. apply map_ext. intros row. apply length_map.
  - induction image as [|row image IH]; cbn; constructor; [|exact IH].
    induction row as [|p row IHrow]; cbn; constructor; [|exact IHrow].
    intros Hp. apply represents_integer_value. now apply of_Z_float32_exact.
Qed.

(** C6. When PatientWeight is missing or None, or the dose sequence is
    missing, None or empty, or the dose field of its first item is missing
    or None, or the dose computed from it equals zero,
    [_convert_to_suv] does not raise and adds one warning to the log, one
    of the four skip warnings. The grid it returns is the pixel grid cast
    to float32 value by value, with nothing scaled: it has the shape of the
    input, and every pixel whose stored value is below 2^24 in magnitude
    (all 8- and 16-bit pixel data) holds that very integer. A larger value
    is rounded to float32. *)
Theorem suv_skipped_with_warning :
  forall (image : Array2 Z) (metadata : Dataset) (l : log),
    (PatientWeight metadata = Missing \/ PatientWeight metadata = PyNone)
    \/ (RadiopharmaceuticalInformationSequence metadata = Missing
        \/ RadiopharmaceuticalInformationSequence metadata = PyNone
        \/ RadiopharmaceuticalInformationSequence metadata = Value [])
    \/ (exists item rest,
           RadiopharmaceuticalInformationSequence metadata = Value (item :: rest)
           /\ (RadionuclideTotalDose item = Missing \/ RadionuclideTotalDose item = PyNone))
    \/ (exists item rest raw,
           RadiopharmaceuticalInformationSequence metadata = Value (item :: rest)
           /\ RadionuclideTotalDose item = Value raw
           /\ SFeqb (dose_of raw) zero = true) ->
    exists (out : Array2 float) (msg : string),
      _convert_to_suv image metadata l = (Ok out, l ++ [(WARNING, msg)])
      /\ In msg skip_warnings
      /\ out = map (map (Fp.of_Z 24 128)) image
      /\ map (@List.length float) out = map (@List.length Z) image
      /\ Forall2 (Forall2 (fun x p => Z.abs p < 2 ^ 24 -> integer_value x = Some p))
                 out image.
Proof.
  intros image metadata l H.
  destruct (convert_to_suv_skip_run image metadata l H) as [msg [Hmsg Hrun]].
  exists (astype_float32 image), msg.
  split; [exact Hrun|]. split; [exact Hmsg|]. split; [reflexivity|].
  apply astype_float32_values.
Qed.

Lemma suv_skipped_with_warning_witness :
  exists (out : Array2 float) (msg : string),
    _convert_to_suv pet_pixel pet_metadata_no_weight []
    = (Ok out, [] ++ [(WARNING, msg)])
    /\ In msg skip_warnings
    /\ out = map (map (Fp.of_Z 24 128)) pet_pixel
    /\ map (@List.length float) out = map (@List.length Z) pet_pixel
    /\ Forall2 (Forall2 (fun x p => Z.abs p < 2 ^ 24 -> integer_value x = Some p))
               out pet_pixel.
Proof.
  apply (suv_skipped_with_warning pet_pixel pet_metadata_no_weight []).
  left. left. reflexivity.
Defined.

(** The values are not always unchanged. On a slice without PatientWeight
    whose one pixel stores 2^24 + 1 = 16777217, the conversion is skipped
    and the pixel returned holds 16777216: the cast rounds, and two
    different pixel grids come back as the same array. *)
Lemma suv_skip_rounds_large_value :
  exists x : float,
    _convert_to_suv large_pixel pet_metadata_no_weight []
    = (Ok [[x]],
       [(WARNING, "Skipping SUV conversion: PatientWeight is missing or None"%string)])
    /\ integer_value x = Some 16777216
    /\ integer_value x <> Some 16777217
    /\ ~ Forall2 (Forall2 represents) [[x]] large_pixel
    /\ fst (_convert_to_suv [[16777216]] pet_metadata_no_weight []) = Ok [[x]].
Proof.
  exists (S754_finite false 8388608 1).
  split; [vm_compute; reflexivity|].
  split; [vm_compute; reflexivity|].
  split; [discriminate|].
  split; [|vm_compute; reflexivity].
  intros H. inversion H as [|? ? ? ? Hrow _]; subst.
  inversion Hrow as [|? ? ? ? Hp _]; subst.
  cbn in Hp. lia.
Qed.

End SuvSkip.

(* ===================================================================== *)
(** * More on loading and stacking *)
(* ===================================================================== *)

Module LoaderMore.
Import DicomConverter Loader LoaderLog FpFacts SortFacts LoaderFacts Examples.

Lemma count_app (r : log_record) (l1 l2 : log) :
  count r (l1 ++ l2) = (count r l1 + count r l2)%nat.
Proof. unfold count. now rewrite filter_app, length_app. Qed.

Lemma z_log_cases (ds : Dataset) :
  z_log ds = if lacks_position ds then [fallback] else [].
Proof.
  unfold z_log, lacks_position, third_component, _get_z_position,
    try_except, bind, lift, ret, emit.
  destruct ds as [md pw seq ipp sl inum px]; cbn.
  destruct ipp as [| |[|a [|b [|c t]]]]; cbn; try reflexivity;
    destruct sl; cbn; try reflexivity;
    destruct inum; cbn; reflexivity.
Qed.

(** The loop logs, file by file, what [file_log] says. *)
Lemma load_log (files : list DcmFile) (slices : list Loaded) (l : log) :
  load files slices l
  = (Ok (slices ++ map (fun x => (z_key x, fst x, snd x)) (decoded files)),
     l ++ flat_map file_log files).
Proof.
  revert slices l. induction files as [|file files IH]; intros slices l.
  - cbn. now rewrite !app_nil_r.
  - cbn [load flat_map]. unfold bind at 1, try_except, bind, lift, decoded.
    cbn [flat_map]. unfold decode at 1, file_log at 1.
    destruct (dcmread file) as [ds|e].
    + rewrite get_z_position_run.
      destruct (pixel_array ds) as [px|e]; cbn; rewrite IH.
      * f_equal; [now rewrite <- app_assoc|].
        now rewrite app_nil_r, <- !app_assoc.
      * f_equal. now rewrite <- !app_assoc.
    + cbn. rewrite IH. f_equal. now rewrite <- !app_assoc.
Qed.

Lemma to_2d_array_log (files : list DcmFile) (l : log) :
  to_2d_array files l
  = (Ok (list_sort z_key (decoded files)),
     l ++ [(INFO, "Found DICOM files"%string)] ++ flat_map file_log files
       ++ [(INFO, "Successfully loaded and sorted slices by z-position."%string)]).
Proof.
  destruct (to_2d_array_run files l) as [l' Hrun].
  rewrite Hrun. f_equal.
  unfold to_2d_array, bind, emit, ret in Hrun. rewrite load_log in Hrun.
  injection Hrun as _ <-. now rewrite <- !app_assoc.
Qed.

Lemma count_file_logs (files : list DcmFile) :
  count skipped (flat_map file_log files)
  = List.length (filter (fun file => negb (decodable file)) files)
  /\ count fallback (flat_map file_log files)
     = List.length (filter reads_without_position files)
  /\ (List.length (decoded files)
      + List.length (filter (fun file => negb (decodable file)) files))%nat
     = List.length files.
Proof.
  induction files as [|file files [IH1 [IH2 IH3]]]; [repeat split|].
  unfold decoded in *. cbn [flat_map filter List.length].
  rewrite !count_app, length_app, IH1, IH2, <- IH3.
  set (T1 := filter (fun file => negb (decodable file)) files).
  set (T2 := filter reads_without_position files).
  set (D := flat_map _ files).
  unfold file_log, decodable, decode, reads_without_position.
  destruct (dcmread file) as [ds|e]; [|cbn; repeat split; lia].
  rewrite z_log_cases, !count_app.
  destruct (lacks_position ds), (pixel_array ds); cbn; repeat split; lia.
Qed.

(** X11. [to_2d_array] never raises and accounts for every file: the
    slices returned are as many as the files that decode; each file that
    does not decode is skipped with exactly one warning; and each file that
    reads without any resolvable position logs exactly one fallback warning,
    also when its pixels then fail to decode. *)
Theorem to_2d_array_accounts_for_files :
  forall (files : list DcmFile) (l : log),
    exists (out : list (Array2 Z * Dataset)) (added : log),
      to_2d_array files l = (Ok out, l ++ added)
      /\ List.length out = List.length (filter decodable files)
      /\ count skipped added = List.length (filter (fun f => negb (decodable f)) files)
      /\ count fallback added = List.length (filter reads_without_position files)
      /\ (List.length out + count skipped added)%nat = List.length files.
Proof.
  intros files l. do 2 eexists. split; [apply to_2d_array_log|].
  destruct (count_file_logs files) as [H1 [H2 H3]].
  assert (Hlen : List.length (list_sort z_key (decoded files))
                 = List.length (decoded files))
    by (apply Permutation_length, list_sort_perm).
  assert (Hdec : List.length (decoded files) = List.length (filter decodable files)).
  { clear. induction files as [|file files IH]; [reflexivity|].
    unfold decoded in *. cbn [flat_map filter]. unfold decodable at 1.
    destruct (decode file); cbn; now rewrite IH. }
  rewrite !count_app. cbn [count]. unfold count at 1 3 4 6. cbn.
  rewrite H1, H2, Hlen. repeat split; try lia.
Qed.

Lemma FpFacts_SFeqb_leb (x y k : float) :
  SFeqb x k = true -> SFeqb y k = true -> SFleb x y = true.
Proof. unfold SFeqb, SFleb. order_cases. Qed.

(** X12. When the decodable slices all have one z-position (for example
    when none has a position attribute and all fall back to 0.0), the loader
    returns them in the order of the files. *)
Theorem to_2d_array_keeps_file_order_on_ties :
  forall (files : list DcmFile) (k : float) (l : log),
    Forall (fun x => SFeqb (z_key x) k = true) (decoded files) ->
    exists l' : log, to_2d_array files l = (Ok (decoded files), l').
Proof.
  intros files k l Hall.
  destruct (to_2d_array_run files l) as [l' Hrun].
  exists l'. rewrite Hrun. f_equal. f_equal.
  apply list_sort_sorted_id. clear Hrun.
  induction Hall as [|x rest Hx Hrest IH]; [constructor|].
  constructor; [exact IH|].
  revert Hrest. apply Forall_impl. intros y Hy.
  exact (FpFacts_SFeqb_leb _ _ _ Hx Hy).
Qed.

Lemma to_2d_array_keeps_file_order_on_ties_witness :
  exists l' : log, to_2d_array unplaced_study [] = (Ok (decoded unplaced_study), l').
Proof.
  apply (to_2d_array_keeps_file_order_on_ties unplaced_study zero []).
  repeat (apply Forall_cons; [reflexivity|]). apply Forall_nil.
Defined.

(** ** Stacking *)

Section Stack.
Variable resize : Array2 float -> nat -> Array2 float.

(** The loop keeps the slices of the target shape and resamples the
    others, one log record for each resampled slice. *)
Lemma resize_loop_run (target_size : nat) (slices acc : list (Array2 float)) (l : log) :
  resize_loop resize target_size slices acc l
  = (Ok (acc ++ map (fun a => if fits target_size a then a else resize a target_size) slices),
     l ++ flat_map (fun a => if fits target_size a then [] else [resizing]) slices).
Proof.
  revert acc l. induction slices as [|a slices IH]; intros acc l.
  - cbn. now rewrite !app_nil_r.
  - cbn [resize_loop map flat_map]. unfold fits at 1 3.
    destruct (shape_eqb (shape a) (target_size, target_size)).
    + rewrite IH. now rewrite <- app_assoc.
    + unfold bind, emit. rewrite IH. now rewrite <- !app_assoc.
Qed.

Lemma shape_eqb_eq (s t : nat * nat) : shape_eqb s t = true <-> s = t.
Proof.
  unfold shape_eqb. destruct s as [a b], t as [c d]. cbn.
  rewrite andb_true_iff, !Nat.eqb_eq. split; [intros [-> ->]|intros [= -> ->]]; auto.
Qed.

Lemma stack_same_shape {A} (shp : nat * nat) (arrays : list (Array2 A)) :
  arrays <> [] ->
  Forall (fun a => shape a = shp) arrays ->
  stack arrays = Ok arrays.
Proof.
  intros Hne Hall. destruct arrays as [|a rest]; [contradiction|].
  inversion Hall as [|? ? Ha Hrest]; subst. cbn [stack].
  replace (forallb (fun b => shape_eqb (shape b) (shape a)) rest) with true; [reflexivity|].
  symmetry. apply forallb_forall. intros b Hb. apply shape_eqb_eq.
  rewrite Forall_forall in Hrest. now apply Hrest.
Qed.

Lemma to_3d_array_run (slices : list (Array2 float)) (target_size : nat) (l : log) :
  slices <> [] ->
  to_3d_array resize slices target_size l
  = (stack (map (fun a => if fits target_size a then a else resize a target_size) slices),
     l ++ flat_map (fun a => if fits target_size a then [] else [resizing]) slices
       ++ [(INFO, "Stacking slices into 3D volume"%string)]).
Proof.
  intros Hne. unfold to_3d_array.
  destruct slices as [|a rest]; [contradiction|].
  unfold bind, emit, lift. rewrite resize_loop_run. cbn [app].
  now rewrite <- app_assoc.
Qed.

(** X13. Slices that already have the target shape pass through
    [to_3d_array] untouched: the volume returned is the list of the very
    slices given, the resampler is not applied, and only the stacking is
    logged. *)
Theorem to_3d_array_passes_through :
  forall (slices : list (Array2 float)) (target_size : nat) (l : log),
    slices <> [] ->
    Forall (fun a => fits target_size a = true) slices ->
    to_3d_array resize slices target_size l
    = (Ok slices, l ++ [(INFO, "Stacking slices into 3D volume"%string)]).
Proof.
  intros slices target_size l Hne Hall.
  assert (Hmap : map (fun a => if fits target_size a then a else resize a target_size) slices
                 = slices).
  { clear Hne. induction Hall as [|a rest Ha _ IH]; [reflexivity|].
    cbn. now rewrite Ha, IH. }
  assert (Hlog : flat_map (fun a => if fits target_size a then [] else [resizing]) slices
                 = []).
  { clear Hne Hmap. induction Hall as [|a rest Ha _ IH]; [reflexivity|].
    cbn. now rewrite Ha, IH. }
  rewrite to_3d_array_run, Hmap, Hlog by assumption. cbn [app].
  rewrite (stack_same_shape (target_size, target_size)); [reflexivity|assumption|].
  revert Hall. apply Forall_impl. intros b Hb. now apply shape_eqb_eq.
Qed.

(** X14. With a resampler that returns grids of the target shape,
    [to_3d_array] never raises on a non-empty list: the volume has one slice
    per input slice, in order, every slice of shape
    (target_size, target_size); a slice that already had that shape is kept
    as it is and any other is resampled. *)
Theorem to_3d_array_shape :
  forall (slices : list (Array2 float)) (target_size : nat) (l : log),
    (forall a, fits target_size (resize a target_size) = true) ->
    slices <> [] ->
    exists (volume : list (Array2 float)) (l' : log),
      to_3d_array resize slices target_size l = (Ok volume, l')
      /\ List.length volume = List.length slices
      /\ Forall (fun a => shape a = (target_size, target_size)) volume
      /\ forall (i : nat) (a : Array2 float),
           nth_error slices i = Some a ->
           nth_error volume i
           = Some (if fits target_size a then a else resize a target_size).
Proof.
  intros slices target_size l Hres Hne.
  set (volume := map (fun a => if fits target_size a then a else resize a target_size) slices).
  assert (Hshape : Forall (fun a => shape a = (target_size, target_size)) volume).
  { apply Forall_forall. intros b Hb. apply in_map_iff in Hb as [a [<- _]].
    apply shape_eqb_eq. destruct (fits target_size a) eqn:Ha; [exact Ha|apply Hres]. }
  exists volume. eexists.
  split.
  - rewrite to_3d_array_run by assumption. fold volume.
    rewrite (stack_same_shape (target_size, target_size)); [reflexivity| |assumption].
    subst volume. destruct slices; [contradiction|discriminate].
  - split; [apply length_map|]. split; [exact Hshape|].
    intros i a Hi. unfold volume. rewrite nth_error_map, Hi. reflexivity.
Qed.
End Stack.

Lemma to_3d_array_passes_through_witness :
  to_3d_array blank [tile; tile] 2 []
  = (Ok [tile; tile], [] ++ [(INFO, "Stacking slices into 3D volume"%string)]).
Proof.
  apply (to_3d_array_passes_through blank [tile; tile] 2 []).
  - discriminate.
  - repeat (apply Forall_cons; [reflexivity|]). apply Forall_nil.
Defined.

Lemma blank_fits (a : Array2 float) (target_size : nat) :
  fits target_size (blank a target_size) = true.
Proof.
  unfold fits. apply shape_eqb_eq. unfold blank, shape.
  destruct target_size as [|n]; [reflexivity|].
  cbn [repeat List.length]. now rewrite !repeat_length.
Qed.

Lemma to_3d_array_shape_witness :
  exists (volume : list (Array2 float)) (l' : log),
    to_3d_array blank [tile; tile] 3 [] = (Ok volume, l')
    /\ List.length volume = 2%nat
    /\ Forall (fun a => shape a = (3%nat, 3%nat)) volume.
Proof.
  destruct (to_3d_array_shape blank [tile; tile] 3 [])
    as [volume [l' [Hrun [Hlen [Hshape _]]]]].
  - intros a. apply blank_fits.
  - discriminate.
  - exists volume, l'. repeat split; assumption.
Defined.

End LoaderMore.

(* ===================================================================== *)
(** * More on the per-study pipeline *)
(* ===================================================================== *)

Module PipelineMore.
Import VolumeProcessor IntensityProcessor DicomConverter Pipeline.
Import Loader LoaderLog Conversion PipelineStages.
Import PyFacts TrimFacts SortFacts LoaderFacts NormalizeFacts IntensityMore LoaderMore.
Import Examples.

(** ** Running and inverting the monad *)

Lemma bind_run {A B} (c : M A) (k : A -> M B) (l l1 : log) (a : A) :
  c l = (Ok a, l1) -> bind c k l = k a l1.
Proof. intros H. unfold bind. now rewrite H. Qed.

Lemma bind_Ok_inv {A B} (c : M A) (k : A -> M B) (l l' : log) (b : B) :
  bind c k l = (Ok b, l') ->
  exists a l1, c l = (Ok a, l1) /\ k a l1 = (Ok b, l').
Proof.
  unfold bind. destruct (c l) as [[a|e] l1]; [eauto|discriminate].
Qed.

(** ** Lengths along the stages *)

Section Stages.
Variable _convert_to_hu : Array2 Z -> Dataset -> M (Array2 float).
Variable resize : Array2 float -> nat -> Array2 float.
Variable slice_mean : Array2 float -> float.
Variable mkdir : string -> result unit.
Variable np_save : string -> list (Array2 float) -> result unit.

Lemma convert_loop_length (normalize : bool) (slices : list (Array2 Z * Dataset)) :
  forall (acc out : list (Array2 float)) (l l' : log),
    convert_loop _convert_to_hu normalize slices acc l = (Ok out, l') ->
    List.length out = (List.length acc + List.length slices)%nat.
Proof.
  induction slices as [|[image metadata] slices IH]; intros acc out l l' H.
  - cbn in H. injection H as <- _. cbn. lia.
  - cbn [convert_loop] in H.
    apply bind_Ok_inv in H as [a [l1 [_ H]]].
    apply bind_Ok_inv in H as [a' [l2 [_ H]]].
    apply IH in H. rewrite H, length_app. cbn. lia.
Qed.

Lemma to_3d_array_length (slices volume : list (Array2 float)) (target_size : nat)
      (l l' : log) :
  to_3d_array resize slices target_size l = (Ok volume, l') ->
  slices <> [] /\ List.length volume = List.length slices.
Proof.
  intros H. assert (Hne : slices <> []) by (intros ->; discriminate).
  split; [exact Hne|].
  rewrite to_3d_array_run in H by assumption.
  injection H as H _. unfold stack in H.
  destruct (map _ slices) as [|a rest] eqn:Hm; [discriminate|].
  destruct (forallb _ rest); [|discriminate].
  injection H as <-. rewrite <- Hm. apply length_map.
Qed.

Lemma normalize_result_length (volume : list (Array2 float)) :
  List.length (normalize_result 24 128 volume) = List.length volume.
Proof.
  unfold normalize_result, _normalize, try_except, bind, lift, ret, emit.
  destruct (amin (elements volume)); [|reflexivity].
  destruct (amax (elements volume)); [|reflexivity].
  cbn. apply length_map.
Qed.

(** The trimmer on a non-empty volume with a minimum of at least 1. *)
Lemma trim_total (prec emax : Z) {Slice : Type} (mean : Slice -> float)
      (volume : list Slice) (thr : float) (m : Z) (mode : bool) (l : log) :
  volume <> [] -> 1 <= m ->
  exists out l',
    trim_volume_by_threshold prec emax mean volume thr m mode l = (Ok out, l')
    /\ out <> [] /\ (List.length out <= List.length volume)%nat.
Proof.
  intros Hne Hm.
  assert (Hd : (1 <= List.length volume)%nat)
    by (destruct volume; [contradiction|cbn; lia]).
  destruct (final_range_bounds prec emax mean volume thr m mode Hd Hm)
    as [s [e [b [Hfr [Hs He]]]]].
  assert (Hlen : List.length (slice volume s (e + 1)) = Z.to_nat (e + 1 - s))
    by (apply slice_length; lia).
  exists (slice volume s (e + 1)).
  unfold trim_volume_by_threshold, bind, lift. rewrite Hfr.
  destruct b; eexists; (split; [reflexivity|]); split; try lia;
    intros Hnil; rewrite Hnil in Hlen; cbn in Hlen; lia.
Qed.

Lemma decoded_length (files : list DcmFile) :
  List.length (decoded files) = List.length (filter decodable files).
Proof.
  induction files as [|file files IH]; [reflexivity|].
  unfold decoded in *. cbn [flat_map filter]. unfold decodable at 1.
  destruct (decode file); cbn; now rewrite IH.
Qed.

Lemma preprocess_nonempty (output_path patient_id : string)
      (files : list DcmFile) (disease_code : string)
      (threshold : float) (max_mode : bool) (l : log) :
  files <> [] ->
  preprocess_pet_patient_data _convert_to_hu resize slice_mean mkdir np_save
    output_path patient_id files disease_code threshold max_mode l
  = match stages _convert_to_hu resize slice_mean mkdir np_save
            output_path patient_id files disease_code threshold max_mode
            (l ++ [(INFO, "=====< PRE-PROCESSING PET PATIENT >====="%string)]) with
    | (Ok o, l') => (Ok o, l')
    | (Raise e, l') => (Raise e, l' ++ [(ERROR, "Error processing PET patient"%string)])
    end.
Proof.
  intros Hne. destruct files as [|file files]; [contradiction|].
  unfold preprocess_pet_patient_data. unfold bind at 1, emit at 1, try_except.
  fold (stages _convert_to_hu resize slice_mean mkdir np_save output_path patient_id
              (file :: files) disease_code threshold max_mode).
  destruct (stages _ _ _ _ _) as [[o|e] l']; reflexivity.
Qed.

(** Whatever the stages return, written or not, is a non-empty volume. *)
Lemma stages_saved (output_path patient_id : string)
      (files : list DcmFile) (disease_code : string)
      (threshold : float) (max_mode : bool) (l l' : log) (o : outcome) :
  stages _convert_to_hu resize slice_mean mkdir np_save
    output_path patient_id files disease_code threshold max_mode l
  = (Ok o, l') ->
  exists volume,
    (o = Saved disease_code volume \/ o = SaveFailed disease_code volume)
    /\ volume <> []
    /\ (List.length volume <= List.length (filter decodable files))%nat.
Proof.
  intros H. unfold stages in H.
  rewrite (bind_run _ _ _ _ _ (to_2d_array_log files l)) in H.
  apply bind_Ok_inv in H as [converted [l1 [Hconv H]]].
  apply convert_loop_length in Hconv. cbn [List.length Nat.add] in Hconv.
  apply bind_Ok_inv in H as [volume [l2 [Hstack H]]].
  apply to_3d_array_length in Hstack as [Hne Hlen].
  rewrite (bind_run _ _ _ _ _ (normalize_run 24 128 volume l2)) in H.
  apply bind_Ok_inv in H as [[] [l3 [_ H]]].
  apply bind_Ok_inv in H as [trimmed [l4 [Htrim H]]].
  apply bind_Ok_inv in H as [[] [l5 [_ H]]].
  apply bind_Ok_inv in H as [written [l6 [_ H]]].
  apply bind_Ok_inv in H as [[] [l7 [_ H]]].
  injection H as <- _.
  destruct (trim_total 24 128 slice_mean (normalize_result 24 128 volume)
              (of_float 24 128 threshold) 8 max_mode l3) as [out [l8 [Hrun [Hout Hle]]]];
    [|lia|].
  { intros Hnil. pose proof (normalize_result_length volume) as Hn.
    rewrite Hnil in Hn. cbn in Hn. destruct converted; [contradiction|].
    cbn in Hlen. lia. }
  rewrite Hrun in Htrim. injection Htrim as <- _.
  exists out. split; [destruct written; auto|]. split; [assumption|].
  rewrite normalize_result_length, Hlen, Hconv in Hle.
  rewrite (Permutation_length (list_sort_perm z_key (decoded files))), decoded_length in Hle.
  exact Hle.
Qed.

(** X15. Whatever [preprocess_pet_patient_data] saves is a non-empty
    volume, saved under the disease code given, with at most one slice per
    decodable file of the study: an empty volume is never saved. The same
    holds of the volume that [np.save] failed to write. *)
Theorem saved_volume_is_not_empty :
  forall (output_path patient_id : string)
         (files : list DcmFile) (disease_code label : string) (threshold : float)
         (max_mode : bool) (o : outcome) (volume : list (Array2 float)) (l l' : log),
    preprocess_pet_patient_data _convert_to_hu resize slice_mean mkdir np_save
      output_path patient_id files disease_code threshold max_mode l
    = (Ok o, l') ->
    o = Saved label volume \/ o = SaveFailed label volume ->
    files <> [] /\ label = disease_code /\ volume <> []
    /\ (List.length volume <= List.length (filter decodable files))%nat.
Proof.
  intros output_path patient_id files disease_code label threshold max_mode
         o volume l l' H Ho.
  destruct files as [|file files].
  - cbn in H. injection H as <- _. destruct Ho; discriminate.
  - split; [discriminate|].
    rewrite preprocess_nonempty in H by discriminate.
    destruct (stages _ _ _ _ _) as [[o1|e] l1] eqn:Hst; [|discriminate].
    injection H as -> _.
    apply stages_saved in Hst as [v [Hv [Hne Hlen]]].
    assert (Heq : label = disease_code /\ volume = v)
      by (destruct Ho as [->| ->], Hv as [Hv|Hv]; try discriminate;
          injection Hv as -> ->; auto).
    destruct Heq as [-> ->]. auto.
Qed.

(** X16. The only study that is skipped is the one without files, and
    every failure is surfaced: the pipeline returns without a volume exactly
    when the file list is empty, and when it raises, the last record of the
    log is its error record. *)
Theorem skipped_or_surfaced :
  forall (output_path patient_id : string)
         (files : list DcmFile) (disease_code : string) (threshold : float)
         (max_mode : bool) (l : log),
    (files = [] ->
     preprocess_pet_patient_data _convert_to_hu resize slice_mean mkdir np_save
       output_path patient_id files disease_code threshold max_mode l
     = (Ok Skipped,
        l ++ [(INFO, "=====< PRE-PROCESSING PET PATIENT >====="%string);
              (INFO, "Skipping PET patient due to missing DICOM files."%string)]))
    /\ (forall l',
          preprocess_pet_patient_data _convert_to_hu resize slice_mean mkdir np_save
            output_path patient_id files disease_code threshold max_mode l
          = (Ok Skipped, l') ->
          files = [])
    /\ (forall e l',
          preprocess_pet_patient_data _convert_to_hu resize slice_mean mkdir np_save
            output_path patient_id files disease_code threshold max_mode l
          = (Raise e, l') ->
          exists l1, l' = l1 ++ [(ERROR, "Error processing PET patient"%string)]).
Proof.
  intros output_path patient_id files disease_code threshold max_mode l. split; [|split].
  - intros ->. cbn. now rewrite <- app_assoc.
  - intros l' H. destruct files as [|file files]; [reflexivity|].
    rewrite preprocess_nonempty in H by discriminate.
    destruct (stages _ _ _ _ _) as [[o|e] l1] eqn:Hst; [|discriminate].
    injection H as -> _.
    apply stages_saved in Hst as [v [[Heq|Heq] _]]; discriminate.
  - intros e l' H. destruct files as [|file files]; [discriminate|].
    rewrite preprocess_nonempty in H by discriminate.
    destruct (stages _ _ _ _ _) as [[o|e1] l1]; [discriminate|].
    injection H as _ <-. eauto.
Qed.

(** With a decodable slice, no CT slice and a well-behaved resampler,
    every stage before the save succeeds, and the file system decides the
    rest. *)
Lemma stages_run :
  forall (output_path patient_id : string)
         (files : list DcmFile) (disease_code : string) (threshold : float)
         (max_mode : bool) (l0 : log),
    (forall a, fits 128 (resize a 128) = true) ->
    decoded files <> [] ->
    no_CT (decoded files) ->
    exists (volume : list (Array2 float)) (l1 : log),
      volume <> []
      /\ stages _convert_to_hu resize slice_mean mkdir np_save
           output_path patient_id files disease_code threshold max_mode l0
         = match mkdir (path_join output_path disease_code) with
           | Raise e => (Raise e, l1)
           | Ok _ =>
               match np_save (path_join (path_join output_path disease_code)
                                        (patient_id ++ ".npy")) volume with
               | Ok _ =>
                   (Ok (Saved disease_code volume),
                    l1 ++ [(INFO, "PET volume saved"%string);
                           (INFO, "---------- Successfully processed PET patient ----------"%string)])
               | Raise _ =>
                   (Ok (SaveFailed disease_code volume),
                    l1 ++ [(ERROR, "Error saving PET volume"%string);
                           (INFO, "---------- Successfully processed PET patient ----------"%string)])
               end
           end.
Proof.
  intros output_path patient_id files disease_code threshold max_mode l0 Hres Hdec Hct.
  assert (Hsorted : no_CT (list_sort z_key (decoded files))).
  { unfold no_CT in *.
    apply (Permutation_Forall (Permutation_sym (list_sort_perm z_key (decoded files)))).
    exact Hct. }
  destruct (convert_loop_run _convert_to_hu false _ [] (snd (to_2d_array files l0)) Hsorted)
    as [l1 Hconv].
  cbn [app] in Hconv.
  set (converted := map (fun x => post false (suv_result (fst x) (snd x)))
                        (list_sort z_key (decoded files))) in *.
  assert (Hne : converted <> []).
  { intros Hnil. apply (f_equal (@List.length _)) in Hnil.
    unfold converted in Hnil. rewrite length_map in Hnil.
    rewrite (Permutation_length (list_sort_perm z_key (decoded files))) in Hnil.
    destruct (decoded files); [contradiction|discriminate]. }
  pose proof (to_3d_array_run resize converted 128 l1 Hne) as Hstack.
  set (volume := map (fun a => if fits 128 a then a else resize a 128) converted) in *.
  assert (Hshape : Forall (fun a => shape a = (128%nat, 128%nat)) volume).
  { apply Forall_forall. intros b Hb. apply in_map_iff in Hb as [a [<- _]].
    apply shape_eqb_eq. destruct (fits 128 a) eqn:Ha; [exact Ha|apply Hres]. }
  assert (Hvol : volume <> []) by (unfold volume; destruct converted; [contradiction|discriminate]).
  rewrite (stack_same_shape (128%nat, 128%nat) volume Hvol Hshape) in Hstack.
  destruct (trim_total 24 128 slice_mean (normalize_result 24 128 volume)
              (of_float 24 128 threshold) 8 max_mode
              ((l1 ++ flat_map (fun a => if fits 128 a then [] else [resizing]) converted
                   ++ [(INFO, "Stacking slices into 3D volume"%string)])
                 ++ normalize_log 24 128 volume
                 ++ [(INFO, "Volume shape after stacking and resizing"%string)]))
    as [out [l2 [Htrim [Hout _]]]]; [|lia|].
  { intros Hnil. pose proof (normalize_result_length volume) as Hn.
    rewrite Hnil in Hn. destruct volume; [contradiction|discriminate]. }
  exists out, (l2 ++ [(INFO, "Trimmed volume shape with threshold"%string)]).
  split; [exact Hout|].
  unfold stages.
  rewrite (bind_run _ _ _ _ _ (to_2d_array_log files l0)).
  rewrite to_2d_array_log in Hconv. cbn [snd] in Hconv.
  unfold convert. rewrite (bind_run _ _ _ _ _ Hconv).
  rewrite (bind_run _ _ _ _ _ Hstack).
  rewrite (bind_run _ _ _ _ _ (normalize_run 24 128 volume _)).
  unfold bind at 1, emit at 1. rewrite <- app_assoc.
  rewrite (bind_run _ _ _ _ _ Htrim).
  unfold bind at 1, emit at 1.
  unfold save_pet_volume, bind, lift, try_except, emit, ret, any_exception.
  destruct (mkdir _) as [[]|e]; [|reflexivity].
  destruct (np_save _ out) as [[]|e]; rewrite <- app_assoc; reflexivity.
Qed.

(** X17. A study with at least one decodable slice, no CT slice among the
    decodable ones, and a resampler that returns grids of the target shape
    always reaches the save step with a non-empty volume, and the file system
    decides the rest. If the disease directory cannot be made, what [mkdir]
    raises is logged as a processing error and re-raised; if the directory
    is made and [np.save] succeeds, the volume is saved under the disease
    code and the success record follows the record of the save; if
    [np.save] raises, the error is logged and swallowed: the pipeline
    returns normally and still logs the success record. *)
Theorem decodable_study_reaches_save :
  forall (output_path patient_id : string)
         (files : list DcmFile) (disease_code : string) (threshold : float)
         (max_mode : bool) (l : log),
    (forall a, fits 128 (resize a 128) = true) ->
    decoded files <> [] ->
    no_CT (decoded files) ->
    exists (volume : list (Array2 float)) (l1 : log),
      volume <> []
      /\ preprocess_pet_patient_data _convert_to_hu resize slice_mean mkdir np_save
           output_path patient_id files disease_code threshold max_mode l
         = match mkdir (path_join output_path disease_code) with
           | Raise e =>
               (Raise e, l1 ++ [(ERROR, "Error processing PET patient"%string)])
           | Ok _ =>
               match np_save (path_join (path_join output_path disease_code)
                                        (patient_id ++ ".npy")) volume with
               | Ok _ =>
                   (Ok (Saved disease_code volume),
                    l1 ++ [(INFO, "PET volume saved"%string);
                           (INFO, "---------- Successfully processed PET patient ----------"%string)])
               | Raise _ =>
                   (Ok (SaveFailed disease_code volume),
                    l1 ++ [(ERROR, "Error saving PET volume"%string);
                           (INFO, "---------- Successfully processed PET patient ----------"%string)])
               end
           end.
Proof.
  intros output_path patient_id files disease_code threshold max_mode l Hres Hdec Hct.
  assert (Hfiles : files <> []) by (intros ->; contradiction).
  rewrite preprocess_nonempty by assumption.
  destruct (stages_run output_path patient_id files disease_code threshold max_mode
              (l ++ [(INFO, "=====< PRE-PROCESSING PET PATIENT >====="%string)])
              Hres Hdec Hct) as [volume [l1 [Hne Hrun]]].
  rewrite Hrun. exists volume, l1. split; [exact Hne|].
  destruct (mkdir _) as [[]|e]; [|reflexivity].
  destruct (np_save _ volume) as [[]|e]; reflexivity.
Qed.
End Stages.

Lemma saved_volume_is_not_empty_witness :
  exists (volume : list (Array2 float)) (l' : log),
    preprocess_pet_patient_data (fun _ _ => raise OtherError) blank
      (sum_mean 24 128) (fun _ => Ok tt) (fun _ _ => Ok tt) "out" "P1"
      small_study "A" half false []
    = (Ok (Saved "A" volume), l')
    /\ volume <> []
    /\ (List.length volume <= List.length (filter decodable small_study))%nat.
Proof.
  destruct (stages_run (fun _ _ => raise OtherError) blank
              (sum_mean 24 128) (fun _ => Ok tt) (fun _ _ => Ok tt) "out" "P1"
              small_study "A" half false
              ([] ++ [(INFO, "=====< PRE-PROCESSING PET PATIENT >====="%string)])
              (fun a => blank_fits a 128))
    as [volume [l1 [_ Hst]]].
  - discriminate.
  - repeat (apply Forall_cons; [reflexivity|]). apply Forall_nil.
  - cbv beta iota in Hst.
    assert (Hrun : preprocess_pet_patient_data (fun _ _ => raise OtherError) blank
                     (sum_mean 24 128) (fun _ => Ok tt) (fun _ _ => Ok tt) "out" "P1"
                     small_study "A" half false []
                   = (Ok (Saved "A" volume),
                      l1 ++ [(INFO, "PET volume saved"%string);
                             (INFO, "---------- Successfully processed PET patient ----------"%string)])).
    { etransitivity; [apply preprocess_nonempty; discriminate|].
      exact (f_equal (fun r : result outcome * log =>
                        match r with
                        | (Ok o, l2) => (Ok o, l2)
                        | (Raise e, l2) =>
                            (Raise e, l2 ++ [(ERROR, "Error processing PET patient"%string)])
                        end) Hst). }
    destruct (saved_volume_is_not_empty (fun _ _ => raise OtherError) blank
                (sum_mean 24 128) (fun _ => Ok tt) (fun _ _ => Ok tt) "out" "P1"
                small_study "A" "A" half false (Saved "A" volume) volume [] _ Hrun
                (or_introl eq_refl))
      as [_ [_ [Hne Hlen]]].
    eexists volume, _. exact (conj Hrun (conj Hne Hlen)).
Defined.

Lemma skipped_or_surfaced_witness :
  preprocess_pet_patient_data (fun _ _ => raise OtherError) blank
    (sum_mean 24 128) (fun _ => Ok tt) (fun _ _ => Ok tt) "out" "P1"
    [] "A" half false []
  = (Ok Skipped,
     [] ++ [(INFO, "=====< PRE-PROCESSING PET PATIENT >====="%string);
            (INFO, "Skipping PET patient due to missing DICOM files."%string)]).
Proof.
  apply (proj1 (skipped_or_surfaced (fun _ _ => raise OtherError) blank
                  (sum_mean 24 128) (fun _ => Ok tt) (fun _ _ => Ok tt) "out" "P1"
                  [] "A" half false [])).
  reflexivity.
Defined.

(** On a file system that makes the directory and writes the file, the
    small study is saved. *)
Lemma decodable_study_reaches_save_witness :
  exists (volume : list (Array2 float)) (l1 : log),
    volume <> []
    /\ preprocess_pet_patient_data (fun _ _ => raise OtherError) blank
         (sum_mean 24 128) (fun _ => Ok tt) (fun _ _ => Ok tt) "out" "P1"
         small_study "A" half false []
       = (Ok (Saved "A" volume),
          l1 ++ [(INFO, "PET volume saved"%string);
                 (INFO, "---------- Successfully processed PET patient ----------"%string)]).
Proof.
  apply (decodable_study_reaches_save (fun _ _ => raise OtherError) blank
           (sum_mean 24 128) (fun _ => Ok tt) (fun _ _ => Ok tt) "out" "P1"
           small_study "A" half false []).
  - intros a. apply blank_fits.
  - discriminate.
  - repeat (apply Forall_cons; [reflexivity|]). apply Forall_nil.
Defined.

(** On a file system where the output directory cannot be made (a file
    stands in its place), the same study raises. *)
Example decodable_study_unwritable_directory :
  exists l1 : log,
    preprocess_pet_patient_data (fun _ _ => raise OtherError) blank
      (sum_mean 24 128) (fun _ => Raise OtherError) (fun _ _ => Ok tt) "out" "P1"
      small_study "A" half false []
    = (Raise OtherError, l1 ++ [(ERROR, "Error processing PET patient"%string)]).
Proof.
  destruct (stages_run (fun _ _ => raise OtherError) blank
              (sum_mean 24 128) (fun _ => Raise OtherError) (fun _ _ => Ok tt) "out" "P1"
              small_study "A" half false
              ([] ++ [(INFO, "=====< PRE-PROCESSING PET PATIENT >====="%string)])
              (fun a => blank_fits a 128))
    as [volume [l1 [_ Hst]]].
  - discriminate.
  - repeat (apply Forall_cons; [reflexivity|]). apply Forall_nil.
  - cbv beta iota in Hst. exists l1.
    etransitivity; [apply preprocess_nonempty; discriminate|].
    exact (f_equal (fun r : result outcome * log =>
                      match r with
                      | (Ok o, l2) => (Ok o, l2)
                      | (Raise e, l2) =>
                          (Raise e, l2 ++ [(ERROR, "Error processing PET patient"%string)])
                      end) Hst).
Qed.

End PipelineMore.

(* ===================================================================== *)
(** * The logger and the driver *)
(* ===================================================================== *)

Module DriverFacts.
Import DicomConverter IntensityProcessor Pipeline Logging Driver.
Import Loader PipelineStages DriverSpec.
Import LoaderFacts LoaderMore PipelineMore Examples.

(** ** setup_logger *)

Section Setup.
Variable mkdir : string -> result unit.



End Setup.


(** ** main *)

Lemma bind_ret_l {A B} (a : A) (k : A -> M B) (l : log) : bind (ret a) k l = k a l.
Proof. reflexivity. Qed.

Lemma bind_raise {A B} (c : M A) (k : A -> M B) (l l' : log) (e : exn) :
  c l = (Raise e, l') -> bind c k l = (Raise e, l').
Proof. intros H. unfold bind. now rewrite H. Qed.

Section Main.
Variable _convert_to_hu : Array2 Z -> Dataset -> M (Array2 float).
Variable resize : Array2 float -> nat -> Array2 float.
Variable slice_mean : Array2 float -> float.
Variable mkdir : string -> result unit.
Variable np_save : string -> list (Array2 float) -> result unit.
Variable open_file : string -> result unit.
Variable path_exists : string -> bool.

Local Abbreviation patients :=
  (patients_loop _convert_to_hu resize slice_mean mkdir np_save).
Local Abbreviation diseases :=
  (diseases_loop _convert_to_hu resize slice_mean mkdir np_save).
Local Abbreviation thresholds :=
  (thresholds_loop _convert_to_hu resize slice_mean mkdir np_save).

Lemma patients_loop_prune (out : string) (threshold : float) (code : string)
      (entries : list PatientEntry) (l : log) :
  patients out threshold code entries l
  = patients out threshold code (prune_entries entries) l.
Proof.
  revert l. induction entries as [|p entries IH]; intros l; [reflexivity|].
  cbn [patients_loop prune_entries filter].
  destruct (visible (p_name p) (p_is_dir p)) eqn:Hv.
  - cbn [patients_loop]. rewrite Hv. unfold bind at 1 3.
    destruct (bind _ _ l) as [[[]|e] l1]; [apply IH|reflexivity].
  - rewrite bind_ret_l. apply IH.
Qed.

Lemma diseases_loop_prune (out : string) (threshold : float)
      (root : list DiseaseEntry) (l : log) :
  diseases out threshold root l = diseases out threshold (prune root) l.
Proof.
  revert l. induction root as [|d root IH]; intros l; [reflexivity|].
  unfold prune in *. cbn [diseases_loop filter].
  destruct (visible (d_name d) (d_is_dir d)) eqn:Hv.
  - cbn [map diseases_loop d_name d_is_dir d_entries]. rewrite Hv.
    unfold bind at 1 3. unfold bind at 1 2, emit.
    rewrite patients_loop_prune.
    destruct (patients _ _ _ _ _) as [[[]|e] l1]; [apply IH|reflexivity].
  - rewrite bind_ret_l. apply IH.
Qed.

Lemma thresholds_loop_prune (ths : list (float * string)) (root : list DiseaseEntry)
      (l : log) :
  thresholds ths root l = thresholds ths (prune root) l.
Proof.
  revert l. induction ths as [|[threshold text] ths IH]; intros l; [reflexivity|].
  cbn [thresholds_loop]. unfold bind at 1 3, emit. unfold bind at 1 2, lift.
  destruct (mkdir (output_path text)) as [[]|e]; [|reflexivity].
  unfold bind at 1 2. rewrite diseases_loop_prune.
  destruct (diseases _ _ _ _) as [[[]|e] l1]; [apply IH|reflexivity].
Qed.

(** X19. [main] passes over hidden entries (names starting with a dot)
    and over entries that are not directories, at both levels of the input
    tree: it runs, logs and fails exactly as on the tree without them. *)
Theorem main_ignores_hidden_and_files :
  forall (root : list DiseaseEntry) (reg : Registry),
    main _convert_to_hu resize slice_mean mkdir np_save open_file path_exists root reg
    = main _convert_to_hu resize slice_mean mkdir np_save open_file path_exists
           (prune root) reg.
Proof.
  intros root reg. unfold main.
  destruct (setup_logger _ _ _ _ _ _) as [[[]|e] reg']; [|reflexivity].
  f_equal. unfold bind at 1 6, emit. unfold bind at 1 5. unfold bind at 1 4.
  now rewrite thresholds_loop_prune.
Qed.

(** A study with files none of which decodes makes the pipeline raise. *)
Lemma broken_study_raises (out patient_id : string)
      (files : list DcmFile) (code : string) (threshold : float)
      (mode : bool) (l : log) :
  files <> [] ->
  forallb (fun file => negb (decodable file)) files = true ->
  exists l',
    preprocess_pet_patient_data _convert_to_hu resize slice_mean mkdir np_save
      out patient_id files code threshold mode l
    = (Raise ValueError, l').
Proof.
  intros Hne Hall. rewrite preprocess_nonempty by assumption.
  unfold stages. rewrite (bind_run _ _ _ _ _ (to_2d_array_log files _)).
  rewrite (decoded_nil files Hall). cbn. eexists. reflexivity.
Qed.

Lemma patients_loop_raises (out : string) (threshold : float) (code : string)
      (entries : list PatientEntry) (l : log) :
  existsb broken entries = true ->
  exists e l', patients out threshold code entries l = (Raise e, l').
Proof.
  revert l. induction entries as [|p entries IH]; intros l Hb; [discriminate|].
  cbn [existsb] in Hb. cbn [patients_loop].
  destruct (broken p) eqn:Hp.
  - unfold broken in Hp. apply andb_prop in Hp as [Hp Hall].
    apply andb_prop in Hp as [Hv Hfiles]. rewrite Hv.
    destruct (broken_study_raises out (p_name p) (p_files p) code threshold max_mode l)
      as [l' Hr];
      [destruct (p_files p); [discriminate|discriminate]|exact Hall|].
    exists ValueError, l'.
    apply bind_raise. apply bind_raise. exact Hr.
  - cbn [orb] in Hb. unfold bind at 1.
    match goal with
    | |- context [match ?c l with _ => _ end] => destruct (c l) as [[[]|e] l1]
    end; [apply IH; exact Hb|eauto].
Qed.

Lemma diseases_loop_raises (out : string) (threshold : float)
      (root : list DiseaseEntry) (l : log) :
  has_broken_study root = true ->
  exists e l', diseases out threshold root l = (Raise e, l').
Proof.
  unfold has_broken_study.
  revert l. induction root as [|d root IH]; intros l Hb; [discriminate|].
  cbn [existsb] in Hb. cbn [diseases_loop].
  destruct (visible (d_name d) (d_is_dir d) && existsb broken (d_entries d)) eqn:Hd.
  - apply andb_prop in Hd as [Hv Hex]. rewrite Hv.
    destruct (patients_loop_raises out threshold (d_name d) (d_entries d)
                (l ++ [(INFO, "Processing PET disease"%string)]) Hex) as [e [l' Hr]].
    exists e, l'. apply bind_raise. unfold bind, emit. exact Hr.
  - cbn [orb] in Hb. unfold bind at 1.
    match goal with
    | |- context [match ?c l with _ => _ end] => destruct (c l) as [[[]|e] l1]
    end; [apply IH; exact Hb|eauto].
Qed.

(** X20. [main] does not catch what a study raises. When the input tree
    holds, in a visible disease directory, a visible study with files none
    of which decodes, [main] never completes: it raises, whatever the other
    studies are. *)
Theorem main_fails_on_broken_study :
  forall (root : list DiseaseEntry) (reg : Registry),
    has_broken_study root = true ->
    exists (e : exn) (l' : log) (reg' : Registry),
      main _convert_to_hu resize slice_mean mkdir np_save open_file path_exists root reg
      = ((Raise e, l'), reg').
Proof.
  intros root reg Hb. unfold main.
  destruct (setup_logger _ _ _ _ _ _) as [[[]|e] reg']; [|eauto].
  unfold threshold_values. cbn [thresholds_loop].
  unfold bind at 1, emit at 1. unfold bind at 1, emit at 1.
  unfold bind at 1. unfold bind at 1, emit at 1. unfold bind at 1, lift.
  cbn [app].
  destruct (mkdir _) as [[]|e]; [|eauto].
  unfold bind at 1.
  match goal with
  | |- context [diseases_loop _ _ _ _ _ ?out ?t root ?l0] =>
      destruct (diseases_loop_raises out t root l0 Hb) as [e [l' Hr]]
  end.
  rewrite Hr. eauto.
Qed.
End Main.

Lemma main_fails_on_broken_study_witness :
  exists (e : exn) (l' : log) (reg' : Registry),
    main (fun _ _ => raise OtherError) blank (VolumeProcessor.sum_mean 24 128)
         (fun _ => Ok tt) (fun _ _ => Ok tt) (fun _ => Ok tt) (fun _ => true)
         [ {| d_name := "A"; d_is_dir := true;
              d_entries := [ {| p_name := "patient-1"; p_is_dir := true;
                                p_files := broken_study |} ] |} ]
         no_loggers
    = ((Raise e, l'), reg').
Proof.
  apply (main_fails_on_broken_study (fun _ _ => raise OtherError) blank
           (VolumeProcessor.sum_mean 24 128)
           (fun _ => Ok tt) (fun _ _ => Ok tt) (fun _ => Ok tt) (fun _ => true)).
  vm_compute. reflexivity.
Defined.

End DriverFacts.
